(** * BrainLink backend: the request handlers of [src/index.ts] and the
    identity verifier [userMiddleware], embedded over an explicit document
    store.

    The document store (mongoose), the password hashing primitive (bcrypt)
    and the token library (jsonwebtoken) are external collaborators.  The
    store is modelled by its create / find / delete-by-filter semantics on
    ordered collections; bcrypt and jsonwebtoken are an interface
    ([Platform]) whose operations the handlers call, and what jsonwebtoken
    does with a token is written out where a property rests on it
    ([Jsonwebtoken]).  The two read-only
    endpoints that list a user's content and report health are left out.
    A character of a Rocq string stands for one code unit of a JavaScript
    string. *)

From Stdlib Require Import List String Ascii Bool Arith ZArith Lia.
Import ListNotations.
Local Open Scope string_scope.

Set Implicit Arguments.
Set Warnings "-register-all".

(** ** Strings *)

Definition is_empty (s : string) : bool :=
  match s with EmptyString => true | String _ _ => false end.

(** [header.startsWith(p)] *)
Definition startsWith (p s : string) : bool := String.prefix p s.

(** [s.substring(n)]: the characters of [s] from index [n] on. *)
Fixpoint substring_from (n : nat) (s : string) : string :=
  match n, s with
  | O, _ => s
  | S _, EmptyString => EmptyString
  | S n', String _ s' => substring_from n' s'
  end.

Fixpoint forall_chars (p : ascii -> bool) (s : string) : bool :=
  match s with
  | EmptyString => true
  | String c s' => p c && forall_chars p s'
  end.

Fixpoint map_chars (f : ascii -> ascii) (s : string) : string :=
  match s with
  | EmptyString => EmptyString
  | String c s' => String (f c) (map_chars f s')
  end.

Definition in_range (lo hi c : ascii) : bool :=
  Nat.leb (nat_of_ascii lo) (nat_of_ascii c) && Nat.leb (nat_of_ascii c) (nat_of_ascii hi).

(** The character class [[0-9a-fA-F]]. *)
Definition isHexDigit (c : ascii) : bool :=
  in_range "0"%char "9"%char c || in_range "a"%char "f"%char c
  || in_range "A"%char "F"%char c.

(** [contentId.match(/^[0-9a-fA-F]{24}$/)] is not null. *)
Definition matchesObjectIdFormat (s : string) : bool :=
  Nat.eqb (String.length s) 24 && forall_chars isHexDigit s.

Definition lowerHex (c : ascii) : ascii :=
  if in_range "A"%char "F"%char c then ascii_of_nat (nat_of_ascii c + 32) else c.

(** ** Identifiers and JSON values *)

(** A document identifier, held as its lower-case hexadecimal rendering
    (what [toHexString] and the JSON form of an [ObjectId] give). *)
Definition ObjectId := string.

(** The cast mongoose applies to a hexadecimal string used where the schema
    has an [ObjectId]: the digits are read without regard to case. *)
Definition castObjectId (s : string) : ObjectId := map_chars lowerHex s.

Inductive Json : Type :=
| JNull
| JBool (b : bool)
| JNum (n : Z)
| JStr (s : string)
| JArr (items : list Json)
| JObj (fields : list (string * Json)).

Fixpoint assoc {A : Type} (k : string) (l : list (string * A)) : option A :=
  match l with
  | [] => None
  | (k', v) :: l' => if String.eqb k k' then Some v else assoc k l'
  end.

(** [body.k] for a parsed body: [None] is [undefined]. *)
Definition field (k : string) (body : Json) : option Json :=
  match body with
  | JObj fields => assoc k fields
  | _ => None
  end.

(** ** Documents ([src/db.ts]) *)

Record User := mkUser {
  user_id : ObjectId;
  username : string;
  password : string
}.

Inductive ContentType := youtube | twitter | blog | aichat.

Record Content := mkContent {
  content_id : ObjectId;
  link : string;
  type : ContentType;
  title : string;
  content_userId : ObjectId;
  tags : list ObjectId
}.

(** The fields [LinkSchema] declares; no handler reads a link's [_id]. *)
Record Link := mkLink {
  hash : string;
  link_userId : ObjectId
}.

Record Store := mkStore {
  users : list User;
  contents : list Content;
  links : list Link
}.

Definition emptyStore : Store := mkStore [] [] [].

(** ** Query filters *)

Record UserFilter := mkUserFilter {
  uf_id : option ObjectId;
  uf_username : option string
}.

Record ContentFilter := mkContentFilter {
  cf_id : option ObjectId;
  cf_userId : option ObjectId
}.

Record LinkFilter := mkLinkFilter {
  lf_hash : option string;
  lf_userId : option ObjectId
}.

(** A filter field that is absent constrains nothing. *)
Definition fieldMatches (want : option string) (have : string) : bool :=
  match want with
  | None => true
  | Some w => String.eqb w have
  end.

Definition userMatches (f : UserFilter) (u : User) : bool :=
  fieldMatches (uf_id f) (user_id u) && fieldMatches (uf_username f) (username u).

Definition contentMatches (f : ContentFilter) (c : Content) : bool :=
  fieldMatches (cf_id f) (content_id c) && fieldMatches (cf_userId f) (content_userId c).

Definition linkMatches (f : LinkFilter) (l : Link) : bool :=
  fieldMatches (lf_hash f) (hash l) && fieldMatches (lf_userId f) (link_userId l).

(** The filters of the handlers: [{username}] and [{_id: link.userId}] on
    users, [{_id: contentId, userId: req.userId}] and [{userId: link.userId}]
    on content, [{userId: req.userId}] and [{hash}] on links. *)
Definition byUsername (name : string) : UserFilter := mkUserFilter None (Some name).
Definition byId (u : ObjectId) : UserFilter := mkUserFilter (Some u) None.
Definition ownedFilter (A : ObjectId) (contentId : string) : ContentFilter :=
  mkContentFilter (Some (castObjectId contentId)) (Some A).
Definition ownedBy (u : ObjectId) : ContentFilter := mkContentFilter None (Some u).
Definition byOwner (u : ObjectId) : LinkFilter := mkLinkFilter None (Some u).
Definition byHash (h : string) : LinkFilter := mkLinkFilter (Some h) None.

(** [deleteOne]: the first document the filter matches is removed; the
    count of removed documents is returned with the remaining ones. *)
Fixpoint removeFirst {A : Type} (p : A -> bool) (l : list A) : list A * nat :=
  match l with
  | [] => ([], 0)
  | x :: l' =>
      if p x then (l', 1)
      else let (r, n) := removeFirst p l' in (x :: r, n)
  end.

(** ** Errors and the store monad *)

Inductive ZodIssue :=
| invalid_type (path : string)
| too_small (path message : string)
| too_big (path message : string)
| invalid_format (path message : string)
| invalid_value (path message : string).

Inductive Thrown :=
| ZodError (issues : list ZodIssue)
| MongoServerError (code : Z)
| JsonWebTokenError.

(** The calls a handler makes on the store, in order. *)
Inductive DbCall :=
| User_create (username password : string)
| User_findOne (f : UserFilter)
| Content_create (link : string) (type : ContentType) (title : string) (userId : ObjectId)
| Content_find (f : ContentFilter)
| Content_deleteOne (f : ContentFilter)
| Link_create (userId : ObjectId) (hash : string)
| Link_findOne (f : LinkFilter)
| Link_deleteOne (f : LinkFilter).

Record Ran (A : Type) := mkRan {
  value : Thrown + A;
  final : Store;
  calls : list DbCall
}.

Definition DB (A : Type) : Type := Store -> Ran A.

Definition ret {A : Type} (a : A) : DB A :=
  fun st => mkRan (inr a) st [].

Definition throw {A : Type} (e : Thrown) : DB A :=
  fun st => mkRan (inl e) st [].

Definition bind {A B : Type} (m : DB A) (k : A -> DB B) : DB B :=
  fun st =>
    let r := m st in
    match value r with
    | inl e => mkRan (inl e) (final r) (calls r)
    | inr a =>
        let r' := k a (final r) in
        mkRan (value r') (final r') (calls r ++ calls r')
    end.

Notation "x <- m ;; k" := (bind m (fun x => k))
  (at level 61, m at next level, right associativity).
Notation "' pat <- m ;; k" := (bind m (fun x => match x with pat => k end))
  (at level 61, pat pattern, m at next level, right associativity).

(** A parse result enters the monad: a failed parse throws. *)
Definition lift {A : Type} (r : Thrown + A) : DB A :=
  match r with
  | inl e => throw e
  | inr a => ret a
  end.

(** ** Responses *)

Inductive Body :=
| BMessage (message : string)
| BValidation (message : string) (errors : list ZodIssue)
| BToken (token : string)
| BHash (hash : string)
| BBrain (username : string) (content : list Content).

Record Response := mkResponse {
  status : nat;
  body : Body
}.

(** [res.json(b)] *)
Definition json (b : Body) : Response := mkResponse 200 b.
(** [res.status(n).json({message: m})] *)
Definition reject (n : nat) (m : string) : Response := mkResponse n (BMessage m).

(** What a handler leaves behind: the response sent, the store and the
    store calls made. *)
Record Handled := mkHandled {
  response : Response;
  store : Store;
  trace : list DbCall
}.

(** [try { ... } catch (error) { ... }] around a handler body; every catch
    block of the source sends a response and ends. *)
Definition try_catch (m : DB Response) (h : Thrown -> Response) : Store -> Handled :=
  fun st =>
    let r := m st in
    mkHandled (match value r with inl e => h e | inr x => x end) (final r) (calls r).

(** ** The models of [src/db.ts] *)

Definition E11000 : Z := 11000%Z.

(** The documents a new user would collide with. *)
Definition takenBy (name : string) (oid : ObjectId) (u : User) : bool :=
  String.eqb (username u) name || String.eqb (user_id u) oid.

(** [UserModel.create]: [username] carries a unique index and [_id] is the
    primary key, so a document repeating either is refused with a
    duplicate-key error.  [oid] is the identifier the driver generated. *)
Definition UserModel_create (oid : ObjectId) (name pw : string) : DB unit :=
  fun st =>
    if existsb (takenBy name oid) (users st)
    then mkRan (inl (MongoServerError E11000)) st [User_create name pw]
    else mkRan (inr tt)
           (mkStore (users st ++ [mkUser oid name pw]) (contents st) (links st))
           [User_create name pw].

Definition UserModel_findOne (f : UserFilter) : DB (option User) :=
  fun st => mkRan (inr (find (userMatches f) (users st))) st [User_findOne f].

Definition ContentModel_create (oid : ObjectId) (l : string) (t : ContentType)
    (ti : string) (uid : ObjectId) (tg : list ObjectId) : DB unit :=
  fun st =>
    if existsb (fun c => String.eqb (content_id c) oid) (contents st)
    then mkRan (inl (MongoServerError E11000)) st [Content_create l t ti uid]
    else mkRan (inr tt)
           (mkStore (users st) (contents st ++ [mkContent oid l t ti uid tg]) (links st))
           [Content_create l t ti uid].

Definition ContentModel_find (f : ContentFilter) : DB (list Content) :=
  fun st => mkRan (inr (filter (contentMatches f) (contents st))) st [Content_find f].

(** Returns [deletedCount]. *)
Definition ContentModel_deleteOne (f : ContentFilter) : DB nat :=
  fun st =>
    let (rest, n) := removeFirst (contentMatches f) (contents st) in
    mkRan (inr n) (mkStore (users st) rest (links st)) [Content_deleteOne f].

Definition LinkModel_create (uid : ObjectId) (h : string) : DB unit :=
  fun st =>
    mkRan (inr tt) (mkStore (users st) (contents st) (links st ++ [mkLink h uid]))
      [Link_create uid h].

Definition LinkModel_findOne (f : LinkFilter) : DB (option Link) :=
  fun st => mkRan (inr (find (linkMatches f) (links st))) st [Link_findOne f].

Definition LinkModel_deleteOne (f : LinkFilter) : DB nat :=
  fun st =>
    let (rest, n) := removeFirst (linkMatches f) (links st) in
    mkRan (inr n) (mkStore (users st) (contents st) rest) [Link_deleteOne f].

(** ** The platform: process environment, bcrypt, jsonwebtoken, URL syntax *)

(** What [jwt.verify] returns when it does not throw: the payload of the
    token.  The declared type is [string | JwtPayload]; the value is
    whatever JSON the token carries, so also a number, a boolean or an
    array. *)
Definition Decoded : Type := Json.

(** The operations the handlers call on their collaborators.  Randomness
    and the clock are arguments: [bcrypt_hash] takes the salt it generated,
    [jwt_sign] and [jwt_verify] the time at which they run. *)
Class Platform := {
  env_JWT_PASSWORD : option string;
  bcrypt_hash : string -> nat -> string -> string;
  bcrypt_compare : string -> string -> bool;
  jwt_sign : Z -> list (string * Json) -> string -> string;
  jwt_verify : Z -> string -> string -> Thrown + Decoded;
  isUrl : string -> bool
}.

(** [a || b] on strings: the empty string is falsy. *)
Definition or_else (a : option string) (b : string) : string :=
  match a with
  | Some s => if is_empty s then b else s
  | None => b
  end.

(** [src/config.ts] *)
Definition JWT_PASSWORD {P : Platform} : string := or_else env_JWT_PASSWORD "!123123".

(** Modelled from the spec: [random] of [./utils], which is not among the
    sources.  The spec gives it as a code of the requested length drawn from
    an alphanumeric alphabet; [draw i] is the random draw for position [i]. *)
Definition alphabet : string :=
  "ABCDEFGHIJKLMNOPQRSTUVWXYZabcdefghijklmnopqrstuvwxyz0123456789".

Definition pick (n : nat) : ascii :=
  match String.get (n mod String.length alphabet) alphabet with
  | Some c => c
  | None => "A"%char
  end.

Fixpoint random_from (draw : nat -> nat) (i len : nat) : string :=
  match len with
  | O => EmptyString
  | S len' => String (pick (draw i)) (random_from draw (S i) len')
  end.

Definition random (len : nat) (draw : nat -> nat) : string := random_from draw 0 len.

(** ** Input validation (the zod schemas of [src/index.ts]) *)

Definition Parsed (A : Type) : Type := list ZodIssue + A.

Definition z_string (path : string) (v : option Json) : Parsed string :=
  match v with
  | Some (JStr s) => inr s
  | _ => inl [invalid_type path]
  end.

Definition z_boolean (path : string) (v : option Json) : Parsed bool :=
  match v with
  | Some (JBool b) => inr b
  | _ => inl [invalid_type path]
  end.

Definition z_check {A : Type} (ok : A -> bool) (issue : ZodIssue) (r : Parsed A) : Parsed A :=
  match r with
  | inr a => if ok a then inr a else inl [issue]
  | inl i => inl i
  end.

Definition z_min (n : nat) (message path : string) : Parsed string -> Parsed string :=
  z_check (fun s => Nat.leb n (String.length s)) (too_small path message).

Definition z_max (n : nat) (message path : string) : Parsed string -> Parsed string :=
  z_check (fun s => Nat.leb (String.length s) n) (too_big path message).

(** The issues of all fields are collected. *)
Definition z_and {A B : Type} (a : Parsed A) (b : Parsed B) : Parsed (A * B) :=
  match a, b with
  | inr x, inr y => inr (x, y)
  | inl i, inr _ => inl i
  | inr _, inl j => inl j
  | inl i, inl j => inl (i ++ j)%list
  end.

(** [schema.parse(req.body)] for a [z.object]: throws a [ZodError]. *)
Definition z_object {A : Type} (fields : Json -> Parsed A) (body : Json) : Thrown + A :=
  match body with
  | JObj _ =>
      match fields body with
      | inr a => inr a
      | inl issues => inl (ZodError issues)
      end
  | _ => inl (ZodError [invalid_type ""])
  end.

Definition signupSchema : Json -> Thrown + (string * string) :=
  z_object (fun body =>
    z_and
      (z_max 50 "Username must be less than 50 characters" "username"
        (z_min 3 "Username must be at least 3 characters" "username"
          (z_string "username" (field "username" body))))
      (z_max 100 "Password must be less than 100 characters" "password"
        (z_min 6 "Password must be at least 6 characters" "password"
          (z_string "password" (field "password" body))))).

Definition signinSchema : Json -> Thrown + (string * string) :=
  z_object (fun body =>
    z_and
      (z_min 1 "Username is required" "username"
        (z_string "username" (field "username" body)))
      (z_min 1 "Password is required" "password"
        (z_string "password" (field "password" body)))).

Definition z_enum_type (path : string) (v : option Json) : Parsed ContentType :=
  match v with
  | Some (JStr s) =>
      if String.eqb s "youtube" then inr youtube
      else if String.eqb s "twitter" then inr twitter
      else if String.eqb s "blog" then inr blog
      else if String.eqb s "aichat" then inr aichat
      else inl [invalid_value path "Type must be one of: youtube, twitter, blog, aichat"]
  | _ => inl [invalid_value path "Type must be one of: youtube, twitter, blog, aichat"]
  end.

Definition contentSchema {P : Platform} : Json -> Thrown + (string * ContentType * string) :=
  z_object (fun body =>
    z_and
      (z_and
        (z_check isUrl (invalid_format "link" "Invalid URL format")
          (z_string "link" (field "link" body)))
        (z_enum_type "type" (field "type" body)))
      (z_max 200 "Title must be less than 200 characters" "title"
        (z_min 1 "Title is required" "title"
          (z_string "title" (field "title" body))))).

Definition shareSchema : Json -> Thrown + bool :=
  z_object (fun body => z_boolean "share" (field "share" body)).

Definition deleteContentSchema : Json -> Thrown + string :=
  z_object (fun body =>
    z_min 1 "Content ID is required" "contentId"
      (z_string "contentId" (field "contentId" body))).

(** ** The identity verifier ([userMiddleware]) *)

(** The request as the middleware sees it: the authorization header and the
    request-scoped identity it sets. *)
Record Request := mkRequest {
  authorization : option string;
  userId : option Json
}.

Inductive Passed :=
| Responded (r : Response)
| Next (req : Request).

(** [if (decoded)]: null, [false], 0 and the empty string are falsy, every
    other value is truthy. *)
Definition truthy (d : Decoded) : bool :=
  match d with
  | JNull => false
  | JBool b => b
  | JNum n => negb (Z.eqb n 0)
  | JStr s => negb (is_empty s)
  | JArr _ => true
  | JObj _ => true
  end.

(** [typeof decoded === "string"] *)
Definition isString (d : Decoded) : bool :=
  match d with
  | JStr _ => true
  | _ => false
  end.

(** The token of a header given as [Bearer <token>] or as the bare token. *)
Definition tokenOf (header : string) : string :=
  if startsWith "Bearer " header then substring_from 7 header else header.

Definition unauthorized : Response := reject 401 "Authorization header is required".

(** [!header] holds of an absent header and of the empty string.
    [(decoded as JwtPayload).id] is the [id] property of whatever value
    [decoded] is: undefined when it is not an object or has no [id]. *)
Definition userMiddleware {P : Platform} (now : Z) (req : Request) : Passed :=
  match authorization req with
  | None => Responded unauthorized
  | Some header =>
      if is_empty header then Responded unauthorized
      else
        let token := tokenOf header in
        match jwt_verify now token JWT_PASSWORD with
        | inl _ => Responded (reject 401 "Invalid or expired token")
        | inr decoded =>
            if truthy decoded then
              if isString decoded then Responded (reject 403 "Invalid token format")
              else Next (mkRequest (authorization req) (field "id" decoded))
            else Responded (reject 403 "You are not logged in")
        end
  end.

(** ** The handlers of [src/index.ts]

    A protected handler takes [req_userId], the identity the middleware
    bound: the [_id] of the user a token was issued to, cast to an
    [ObjectId] by the queries that use it.  Identifiers the driver
    generates for new documents ([oid]), the salt and the random draws are
    arguments.  Failures of the store connection are not modelled. *)

Definition validationError (issues : list ZodIssue) : Response :=
  mkResponse 400 (BValidation "Validation error" issues).

(** [isMongoError(error) && error.code === 11000] *)
Definition isDuplicateKey (error : Thrown) : bool :=
  match error with
  | MongoServerError code => Z.eqb code E11000
  | _ => false
  end.

(** [POST /api/v1/signup] *)
Definition signup {P : Platform} (body : Json) (salt : string) (oid : ObjectId)
    : Store -> Handled :=
  try_catch
    ('(username, password) <- lift (signupSchema body) ;;
     let saltRounds := 10 in
     let hashedPassword := bcrypt_hash password saltRounds salt in
     _ <- UserModel_create oid username hashedPassword ;;
     ret (json (BMessage "User signed up successfully")))
    (fun error =>
       match error with
       | ZodError issues => validationError issues
       | _ =>
           if isDuplicateKey error then reject 409 "Username already exists"
           else reject 500 "Internal server error"
       end).

(** [existingUser.password] *)
Definition storedHash (u : User) : string := password u.

(** [POST /api/v1/signin] *)
Definition signin {P : Platform} (now : Z) (body : Json) : Store -> Handled :=
  try_catch
    ('(username, password) <- lift (signinSchema body) ;;
     existingUser <- UserModel_findOne (byUsername username) ;;
     match existingUser with
     | None => ret (reject 403 "Invalid credentials")
     | Some existingUser =>
         let isPasswordValid :=
           bcrypt_compare password (or_else (Some (storedHash existingUser)) "") in
         if isPasswordValid then
           let token := jwt_sign now [("id", JStr (user_id existingUser))] JWT_PASSWORD in
           ret (json (BToken token))
         else ret (reject 403 "Invalid credentials")
     end)
    (fun error =>
       match error with
       | ZodError issues => validationError issues
       | _ => reject 500 "Internal server error"
       end).

(** [POST /api/v1/content] *)
Definition addContent {P : Platform} (req_userId : ObjectId) (body : Json) (oid : ObjectId)
    : Store -> Handled :=
  try_catch
    ('(link, type, title) <- lift (contentSchema body) ;;
     _ <- ContentModel_create oid link type title req_userId [] ;;
     ret (json (BMessage "Content added successfully")))
    (fun error =>
       match error with
       | ZodError issues => validationError issues
       | _ => reject 500 "Failed to add content"
       end).

(** The part the two delete handlers have in common, from the format
    check on. *)
Definition deleteOwned (req_userId : ObjectId) (contentId : string) : DB Response :=
  if negb (matchesObjectIdFormat contentId) then
    ret (reject 400 "Invalid content ID format")
  else
    deletedCount <- ContentModel_deleteOne (ownedFilter req_userId contentId) ;;
    if Nat.eqb deletedCount 0 then
      ret (reject 404 "Content not found or not authorized to delete")
    else ret (json (BMessage "Content deleted successfully")).

(** [DELETE /api/v1/content/:contentId]; a path parameter is a string. *)
Definition deleteContentById (req_userId : ObjectId) (contentId : string)
    : Store -> Handled :=
  try_catch
    (deleteOwned req_userId contentId)
    (fun _ => reject 500 "Failed to delete content").

(** [DELETE /api/v1/content], the identifier in the body. *)
Definition deleteContent (req_userId : ObjectId) (body : Json) : Store -> Handled :=
  try_catch
    (contentId <- lift (deleteContentSchema body) ;;
     deleteOwned req_userId contentId)
    (fun error =>
       match error with
       | ZodError issues => validationError issues
       | _ => reject 500 "Failed to delete content"
       end).

(** [POST /api/v1/brain/share] *)
Definition shareBrain (req_userId : ObjectId) (body : Json) (draw : nat -> nat)
    : Store -> Handled :=
  try_catch
    (share <- lift (shareSchema body) ;;
     if share : bool then
       existingLink <- LinkModel_findOne (byOwner req_userId) ;;
       match existingLink with
       | Some existingLink => ret (json (BHash (hash existingLink)))
       | None =>
           let hash := random 10 draw in
           _ <- LinkModel_create req_userId hash ;;
           ret (json (BHash hash))
       end
     else
       _ <- LinkModel_deleteOne (byOwner req_userId) ;;
       ret (json (BMessage "Removed link")))
    (fun error =>
       match error with
       | ZodError issues => validationError issues
       | _ => reject 500 "Failed to process share request"
       end).

(** [GET /api/v1/brain/:shareLink]; no middleware runs before it. *)
Definition resolveBrain (shareLink : string) : Store -> Handled :=
  try_catch
    (let hash := shareLink in
     if is_empty hash || negb (Nat.eqb (String.length hash) 10) then
       ret (reject 400 "Invalid share link format")
     else
       link <- LinkModel_findOne (byHash hash) ;;
       match link with
       | None => ret (reject 404 "Share link not found")
       | Some link =>
           content <- ContentModel_find (ownedBy (link_userId link)) ;;
           user <- UserModel_findOne (byId (link_userId link)) ;;
           match user with
           | None => ret (reject 404 "User not found")
           | Some user => ret (json (BBrain (username user) content))
           end
       end)
    (fun _ => reject 500 "Failed to fetch shared brain").

(** ** Histories of the store *)

(** The requests that can change the store.  A protected request runs for
    a user of the store: tokens are issued by [signin] to existing users
    only, and no handler removes a user. *)
Inductive ApiCall :=
| Signup (body : Json) (salt : string) (oid : ObjectId)
| AddContent (user : ObjectId) (body : Json) (oid : ObjectId)
| DeleteContentById (user : ObjectId) (contentId : string)
| DeleteContent (user : ObjectId) (body : Json)
| ShareBrain (user : ObjectId) (body : Json) (draw : nat -> nat).

Definition serve {P : Platform} (c : ApiCall) : Store -> Handled :=
  match c with
  | Signup body salt oid => signup body salt oid
  | AddContent u body oid => addContent u body oid
  | DeleteContentById u contentId => deleteContentById u contentId
  | DeleteContent u body => deleteContent u body
  | ShareBrain u body draw => shareBrain u body draw
  end.

Definition isUser (u : ObjectId) (st : Store) : Prop :=
  In u (map user_id (users st)).

Definition authorized (c : ApiCall) (st : Store) : Prop :=
  match c with
  | Signup _ _ _ => True
  | AddContent u _ _ | DeleteContentById u _ | DeleteContent u _ | ShareBrain u _ _ =>
      isUser u st
  end.

Inductive reachable {P : Platform} : Store -> Prop :=
| reachable_empty : reachable emptyStore
| reachable_serve : forall st c,
    reachable st -> authorized c st -> reachable (store (serve c st)).

(** The links of one user. *)
Definition linksOf (u : ObjectId) (st : Store) : list Link :=
  filter (fun l => String.eqb u (link_userId l)) (links st).

Definition contentOf (u : ObjectId) (st : Store) : list Content :=
  filter (fun c => String.eqb u (content_userId c)) (contents st).

(** ** jsonwebtoken, as the handlers call it

    [jwt.sign(payload, secret)] and [jwt.verify(token, secret)] without
    options: HS256, an issued-at claim stamped when signing, no expiry
    unless the payload carries one.  The clock is in milliseconds. *)

(** A decoded token: its payload and its signature (the header is the
    fixed one of HS256). *)
Record Jws := mkJws {
  jws_payload : Json;
  jws_signature : string
}.

(** [Math.floor(Date.now() / 1000)] *)
Definition seconds (now : Z) : Z := (now / 1000)%Z.

Fixpoint set_field (k : string) (v : Json) (l : list (string * Json)) : list (string * Json) :=
  match l with
  | [] => [(k, v)]
  | (k', v') :: l' => if String.eqb k k' then (k, v) :: l' else (k', v') :: set_field k v l'
  end.

(** [payload.iat = payload.iat || timestamp] *)
Definition stamp (now : Z) (payload : list (string * Json)) : list (string * Json) :=
  match assoc "iat" payload with
  | Some v => if truthy v then payload else set_field "iat" (JNum (seconds now)) payload
  | None => set_field "iat" (JNum (seconds now)) payload
  end.

(** A time claim of the payload against the clock: absent, a number that
    passes [ok], or a reason to throw. *)
Definition timeClaim (k : string) (ok : Z -> bool) (payload : Json) : bool :=
  match field k payload with
  | None => true
  | Some (JNum t) => ok t
  | Some _ => false
  end.

(** [jwt.verify]: the token must decode, its signature must be the HMAC of
    its content under the secret, [nbf] must not lie ahead and [exp] must
    lie ahead of the clock; the payload is returned. *)
Definition jsonwebtoken_verify (hmac : string -> Json -> string)
    (decode : string -> option Jws) (now : Z) (token secret : string) : Thrown + Json :=
  match decode token with
  | None => inl JsonWebTokenError
  | Some jws =>
      if negb (String.eqb (hmac secret (jws_payload jws)) (jws_signature jws)) then
        inl JsonWebTokenError
      else
        match jws_payload jws with
        | JNull => inl JsonWebTokenError
        | payload =>
            if negb (timeClaim "nbf" (fun nbf => Z.leb nbf (seconds now)) payload) then
              inl JsonWebTokenError
            else if negb (timeClaim "exp" (fun exp => Z.ltb (seconds now) exp) payload) then
              inl JsonWebTokenError
            else inr payload
        end
  end.

(** A platform whose token library is jsonwebtoken: a token signed over an
    identity claim decodes to that claim stamped with the time of signing,
    signed with the HMAC under the secret, and [jwt.verify] is the check
    above. *)
Class Jsonwebtoken (P : Platform) := {
  hmac : string -> Json -> string;
  jws_decode : string -> option Jws;
  sign_identity : forall (now : Z) (id secret : string),
    jws_decode (jwt_sign now [("id", JStr id)] secret)
    = Some (mkJws (JObj (stamp now [("id", JStr id)]))
              (hmac secret (JObj (stamp now [("id", JStr id)]))));
  verify_is : forall (now : Z) (token secret : string),
    jwt_verify now token secret = jsonwebtoken_verify hmac jws_decode now token secret
}.

(** ** A small platform to run the handlers on *)

Definition demo_sign (_ : Z) (payload : list (string * Json)) (secret : string) : string :=
  match assoc "id" payload with
  | Some (JStr id) => secret ++ "." ++ id
  | _ => secret
  end.

Definition demo_verify (_ : Z) (token secret : string) : Thrown + Decoded :=
  if startsWith (secret ++ ".") token
  then inr (JObj [("id", JStr (substring_from (String.length secret + 1) token))])
  else inl JsonWebTokenError.

Definition demoPlatform : Platform := {|
  env_JWT_PASSWORD := None;
  bcrypt_hash := fun data _ salt => salt ++ "$" ++ data;
  bcrypt_compare := fun data encrypted => String.eqb ("salt$" ++ data) encrypted;
  jwt_sign := demo_sign;
  jwt_verify := demo_verify;
  isUrl := fun s => startsWith "http" s
|}.

(** A second platform, whose token library is jsonwebtoken with tokens
    written out plainly: the length of the signature in strokes, a dot, the
    signature, the issued-at time in strokes followed by its sign, and the
    identity.  The signature of this platform is the secret itself. *)
Fixpoint strokes (n : nat) : string :=
  match n with
  | O => EmptyString
  | S n' => String "1" (strokes n')
  end.

Fixpoint count_strokes (s : string) : nat * string :=
  match s with
  | EmptyString => (O, s)
  | String c s' =>
      if Ascii.eqb c "1" then let (n, r) := count_strokes s' in (S n, r) else (O, s)
  end.

Fixpoint take (n : nat) (s : string) : string :=
  match n, s with
  | S n', String c s' => String c (take n' s')
  | _, _ => EmptyString
  end.

Definition plain_number (z : Z) : string :=
  strokes (Z.abs_nat z) ++ (if Z.ltb z 0 then "-" else "+").

Definition plain_token (signature : string) (iat : Z) (id : string) : string :=
  strokes (String.length signature) ++ "." ++ signature ++ plain_number iat ++ id.

Definition plain_hmac (secret : string) (_ : Json) : string := secret.

Definition plain_sign (now : Z) (payload : list (string * Json)) (secret : string) : string :=
  match assoc "id" payload with
  | Some (JStr id) => plain_token (plain_hmac secret (JObj payload)) (seconds now) id
  | _ => EmptyString
  end.

Definition plain_decode (token : string) : option Jws :=
  let (n, rest) := count_strokes token in
  match rest with
  | String dot rest' =>
      if Ascii.eqb dot "." then
        let (m, tail) := count_strokes (substring_from n rest') in
        match tail with
        | String sign id =>
            if Ascii.eqb sign "+" then
              Some (mkJws (JObj [("id", JStr id); ("iat", JNum (Z.of_nat m))]) (take n rest'))
            else if Ascii.eqb sign "-" then
              Some (mkJws (JObj [("id", JStr id); ("iat", JNum (- Z.of_nat m))]) (take n rest'))
            else None
        | EmptyString => None
        end
      else None
  | EmptyString => None
  end.

Definition stampedPlatform : Platform := {|
  env_JWT_PASSWORD := None;
  bcrypt_hash := fun data _ salt => salt ++ "$" ++ data;
  bcrypt_compare := fun data encrypted => String.eqb ("salt$" ++ data) encrypted;
  jwt_sign := plain_sign;
  jwt_verify := jsonwebtoken_verify plain_hmac plain_decode;
  isUrl := fun s => startsWith "http" s
|}.

Definition alice_id : ObjectId := "64b7f0c2a1d3e4f5a6b7c8d9".
Definition bob_id : ObjectId := "64b7f0c2a1d3e4f5a6b7c8da".
Definition item_id : ObjectId := "64b7f0c2a1d3e4f5a6b7c8db".

Definition credentials (name pw : string) : Json :=
  JObj [("username", JStr name); ("password", JStr pw)].

Definition shareRequest (b : bool) : Json := JObj [("share", JBool b)].

(** Alice and Bob have signed up; Bob saved one item. *)
Definition demoStore : Store :=
  mkStore
    [mkUser alice_id "alice" "salt$secret1"; mkUser bob_id "bob" "salt$hunter2"]
    [mkContent item_id "https://x.com/1" twitter "t" bob_id []]
    [].

(** A store holding two links for Alice, as two overlapping enable
    requests leave it. *)
Definition twoLinkStore : Store :=
  mkStore
    [mkUser alice_id "alice" "salt$secret1"]
    []
    [mkLink "aaaaaaaaaa" alice_id; mkLink "bbbbbbbbbb" alice_id].

(** A store whose only link names an owner that is not among the users. *)
Definition orphanLinkStore : Store :=
  mkStore
    [mkUser alice_id "alice" "salt$secret1"]
    [mkContent item_id "https://x.com/1" twitter "t" bob_id []]
    [mkLink "cccccccccc" bob_id].

(** What holds of every store the requests can produce: a user has at most
    one link, codes are 10 characters long, and the owner of a link is a
    user. *)
Record Consistent (st : Store) : Prop := {
  one_link : forall u, List.length (linksOf u st) <= 1;
  code_length : forall l, In l (links st) -> String.length (hash l) = 10;
  link_owner : forall l, In l (links st) -> isUser (link_userId l) st
}.

Ltac parse_cases :=
  repeat match goal with
    | H : context [match ?x with _ => _ end] |- _ =>
        destruct x eqn:?; simpl in H; try discriminate H
    | H : context [if ?b then _ else _] |- _ =>
        destruct b eqn:?; simpl in H; try discriminate H
    end.

(** Two outcomes of the middleware that are the same up to the header echoed in the request. *)
Definition sameOutcome (a b : Passed) : Prop :=
  match a, b with
  | Responded r1, Responded r2 => r1 = r2
  | Next q1, Next q2 => userId q1 = userId q2
  | _, _ => False
  end.

(** ** Listing content ([GET /api/v1/content]) *)

(** A content document after [populate("userId", "username")]: the owner
    reference is replaced by the owner's [_id] and [username], or by null
    when no user has that identifier. *)
Record Populated := mkPopulated {
  doc : Content;
  populated_userId : option (ObjectId * string)
}.

Definition populate (st : Store) (c : Content) : Populated :=
  mkPopulated c
    (match find (userMatches (byId (content_userId c))) (users st) with
     | Some u => Some (user_id u, username u)
     | None => None
     end).

(** [ContentModel.find(f).populate("userId", "username")], one query chain. *)
Definition ContentModel_find_populate (f : ContentFilter) : DB (list Populated) :=
  fun st =>
    mkRan (inr (map (populate st) (filter (contentMatches f) (contents st)))) st
      [Content_find f].

Inductive ListBody :=
| LContent (content : list Populated)
| LMessage (message : string).

Record ListResponse := mkListResponse {
  list_status : nat;
  list_body : ListBody
}.

Record Fetched := mkFetched {
  fetched : ListResponse;
  fetched_store : Store;
  fetched_trace : list DbCall
}.

(** [GET /api/v1/content] *)
Definition getContent (req_userId : ObjectId) : Store -> Fetched :=
  fun st =>
    let userId := req_userId in
    let r := (content <- ContentModel_find_populate (ownedBy userId) ;;
              ret (mkListResponse 200 (LContent content))) st in
    mkFetched
      (match value r with
       | inl _ => mkListResponse 500 (LMessage "Failed to fetch content")
       | inr x => x
       end)
      (final r) (calls r).

(** The store calls that read and change nothing. *)
Definition isQuery (c : DbCall) : bool :=
  match c with
  | User_findOne _ | Content_find _ | Link_findOne _ => true
  | _ => false
  end.

(** The strings of [z.enum(["youtube", "twitter", "blog", "aichat"])]. *)
Definition typeName (t : ContentType) : string :=
  match t with
  | youtube => "youtube"
  | twitter => "twitter"
  | blog => "blog"
  | aichat => "aichat"
  end.

(** The user a request runs for; a signup runs for nobody. *)
Definition caller (c : ApiCall) : option ObjectId :=
  match c with
  | Signup _ _ _ => None
  | AddContent u _ _ | DeleteContentById u _ | DeleteContent u _ | ShareBrain u _ _ =>
      Some u
  end.

(** The keys of the store: usernames and identifiers are not repeated, and
    the owner of a content document is a user. *)
Record Keyed (st : Store) : Prop := {
  unique_usernames : NoDup (map username (users st));
  unique_user_ids : NoDup (map user_id (users st));
  unique_content_ids : NoDup (map content_id (contents st));
  content_owner : forall c, In c (contents st) -> isUser (content_userId c) st
}.

(** * Properties *)

Local Open Scope list_scope.

(** ** Strings, filters and [deleteOne] *)

Lemma is_empty_false (s : string) : is_empty s = false <-> s <> "".
Proof. destruct s; simpl; split; congruence. Qed.

Lemma or_else_self (s : string) : or_else (Some s) "" = s.
Proof. destruct s; reflexivity. Qed.

Lemma startsWith_append (p s : string) : startsWith p (p ++ s)%string = true.
Proof.
  unfold startsWith. induction p as [|c p IH]; simpl.
  - destruct s; reflexivity.
  - destruct (ascii_dec c c); [exact IH | congruence].
Qed.

Lemma substring_from_append (p s : string) :
  substring_from (String.length p) (p ++ s)%string = s.
Proof. induction p; simpl; auto. Qed.

Lemma tokenOf_bearer (token : string) : tokenOf ("Bearer " ++ token)%string = token.
Proof.
  unfold tokenOf. rewrite startsWith_append.
  exact (substring_from_append "Bearer " token).
Qed.

Lemma random_from_length (draw : nat -> nat) (len i : nat) :
  String.length (random_from draw i len) = len.
Proof. revert i. induction len; simpl; intros; [reflexivity | now rewrite IHlen]. Qed.

Lemma random_length (len : nat) (draw : nat -> nat) :
  String.length (random len draw) = len.
Proof. apply random_from_length. Qed.

Lemma find_none_filter {A : Type} (p : A -> bool) (l : list A) :
  find p l = None -> filter p l = [].
Proof.
  induction l as [|x l IH]; simpl; [reflexivity|].
  destruct (p x); [discriminate | exact IH].
Qed.

Lemma find_none_iff {A : Type} (p : A -> bool) (l : list A) :
  find p l = None <-> (forall x, In x l -> p x = false).
Proof.
  split; [apply find_none|].
  induction l as [|x l IH]; simpl; intros H; [reflexivity|].
  rewrite (H x (or_introl eq_refl)). apply IH. intros y Hy. apply H. now right.
Qed.

Lemma find_some_exists {A : Type} (p : A -> bool) (l : list A) (x : A) :
  In x l -> p x = true -> exists y, find p l = Some y.
Proof.
  intros Hin Hp. destruct (find p l) as [y|] eqn:E; [now exists y|].
  rewrite (find_none _ _ E x Hin) in Hp. discriminate.
Qed.

Lemma removeFirst_none {A : Type} (p : A -> bool) (l : list A) :
  (forall x, In x l -> p x = false) -> removeFirst p l = (l, 0).
Proof.
  induction l as [|x l IH]; simpl; intros H; [reflexivity|].
  rewrite (H x (or_introl eq_refl)), IH; [reflexivity|].
  intros y Hy. apply H. now right.
Qed.

(** [deleteOne] either finds nothing and leaves the collection as it is, or
    takes out exactly one document, one that matches the filter. *)
Lemma removeFirst_cases {A : Type} (p : A -> bool) (l : list A) :
  (removeFirst p l = (l, 0) /\ forall x, In x l -> p x = false)
  \/ exists before x after,
       l = before ++ x :: after /\ p x = true
       /\ (forall y, In y before -> p y = false)
       /\ removeFirst p l = (before ++ after, 1).
Proof.
  induction l as [|x l IH]; simpl.
  - left. split; [reflexivity | intros ? []].
  - destruct (p x) eqn:Hx.
    + right. exists [], x, l. simpl. repeat split; auto. intros ? [].
    + destruct IH as [[E H] | (b & y & a & El & Hy & Hb & E)]; rewrite E.
      * left. split; [reflexivity|]. intros z [<-|Hz]; auto.
      * right. exists (x :: b), y, a. simpl. subst l.
        repeat split; auto. intros z [<-|Hz]; auto.
Qed.

Lemma removeFirst_incl {A : Type} (p : A -> bool) (l : list A) (x : A) :
  In x (fst (removeFirst p l)) -> In x l.
Proof.
  destruct (removeFirst_cases p l) as [[E _] | (b & y & a & El & _ & _ & E)];
    rewrite E; simpl; [auto|].
  subst l. rewrite !in_app_iff. simpl. tauto.
Qed.

(** Counting the documents of a class [q] after a [deleteOne] whose filter
    selects exactly that class: one fewer, if there was one. *)
Lemma removeFirst_filter_same {A : Type} (p q : A -> bool) (l : list A) :
  (forall x, p x = q x) ->
  List.length (filter q (fst (removeFirst p l))) = pred (List.length (filter q l)).
Proof.
  intros Hpq. induction l as [|x l IH]; simpl; [reflexivity|].
  rewrite Hpq. destruct (q x) eqn:Hx; simpl; [reflexivity|].
  destruct (removeFirst p l) as [r n]. simpl in *. now rewrite Hx.
Qed.

(** A class disjoint from the filter is not touched. *)
Lemma removeFirst_filter_other {A : Type} (p q : A -> bool) (l : list A) :
  (forall x, p x = true -> q x = false) ->
  filter q (fst (removeFirst p l)) = filter q l.
Proof.
  intros Hpq. induction l as [|x l IH]; simpl; [reflexivity|].
  destruct (p x) eqn:Hx; simpl.
  - now rewrite (Hpq x Hx).
  - destruct (removeFirst p l) as [r n]. simpl in *. now rewrite IH.
Qed.

Lemma store_eta (st : Store) : mkStore (users st) (contents st) (links st) = st.
Proof. destruct st; reflexivity. Qed.

(** ** Running a handler body *)

Lemma try_catch_lift_inl {A : Type} (e : Thrown) (k : A -> DB Response)
    (h : Thrown -> Response) (st : Store) :
  try_catch (bind (lift (inl e)) k) h st = mkHandled (h e) st [].
Proof. reflexivity. Qed.

Lemma try_catch_lift_inr {A : Type} (a : A) (k : A -> DB Response)
    (h : Thrown -> Response) (st : Store) :
  try_catch (bind (lift (inr a)) k) h st = try_catch (k a) h st.
Proof. reflexivity. Qed.

(** ** The identity verifier *)

Lemma truthy_string (s : string) : truthy (JStr s) = true <-> s <> "".
Proof. simpl. rewrite negb_true_iff. apply is_empty_false. Qed.

Lemma not_string (d : Decoded) : (forall s, d <> JStr s) -> isString d = false.
Proof. destruct d; try reflexivity. intros H. exfalso. exact (H s eq_refl). Qed.

(** C1, as the code has it.  The middleware ends in exactly one of these
    ways.  A header that is absent or empty is answered 401 "Authorization
    header is required".  For a non-empty header: a token that fails
    verification is answered 401 "Invalid or expired token"; a token that
    verifies to a non-empty bare string is answered 403 "Invalid token
    format"; a token that verifies to a falsy value (the empty string, 0,
    [false], null) is answered 403 "You are not logged in"; a token that
    verifies to any other value has the [id] of that value bound to the
    request, which goes on to the handler: the embedded identity for a
    structured payload, no identity for a value without [id]. *)
Theorem userMiddleware_outcomes {P : Platform} (now : Z) (req : Request) :
  (authorization req = None \/ authorization req = Some "" ->
     userMiddleware now req = Responded (reject 401 "Authorization header is required"))
  /\ (forall header,
        authorization req = Some header -> header <> "" ->
        (forall e,
           jwt_verify now (tokenOf header) JWT_PASSWORD = inl e ->
           userMiddleware now req = Responded (reject 401 "Invalid or expired token"))
        /\ (forall s,
              jwt_verify now (tokenOf header) JWT_PASSWORD = inr (JStr s) ->
              s <> "" ->
              userMiddleware now req = Responded (reject 403 "Invalid token format"))
        /\ (forall decoded,
              jwt_verify now (tokenOf header) JWT_PASSWORD = inr decoded ->
              truthy decoded = false ->
              userMiddleware now req = Responded (reject 403 "You are not logged in"))
        /\ (forall decoded,
              jwt_verify now (tokenOf header) JWT_PASSWORD = inr decoded ->
              truthy decoded = true -> (forall s, decoded <> JStr s) ->
              userMiddleware now req
                = Next (mkRequest (authorization req) (field "id" decoded)))
        /\ (forall claims,
              jwt_verify now (tokenOf header) JWT_PASSWORD = inr (JObj claims) ->
              userMiddleware now req
                = Next (mkRequest (authorization req) (assoc "id" claims)))).
Proof.
  unfold userMiddleware. split.
  - intros [-> | ->]; reflexivity.
  - intros header -> Hne. apply is_empty_false in Hne. rewrite Hne.
    split; [|split; [|split; [|split]]].
    + intros e ->. reflexivity.
    + intros s -> Hs. apply truthy_string in Hs. now rewrite Hs.
    + intros decoded -> ->. reflexivity.
    + intros decoded -> -> Hns. now rewrite (not_string Hns).
    + intros claims ->. reflexivity.
Qed.

(** On the demo platform a well-signed bearer token binds its identity. *)
Lemma userMiddleware_outcomes_witness :
  userMiddleware (P := demoPlatform) 0
    (mkRequest (Some "Bearer !123123.64b7f0c2a1d3e4f5a6b7c8d9") None)
  = Next (mkRequest (Some "Bearer !123123.64b7f0c2a1d3e4f5a6b7c8d9")
            (Some (JStr alice_id))).
Proof.
  refine (proj2 (proj2 (proj2 (proj2 (proj2
    (@userMiddleware_outcomes demoPlatform 0
       (mkRequest (Some "Bearer !123123.64b7f0c2a1d3e4f5a6b7c8d9") None))
    "Bearer !123123.64b7f0c2a1d3e4f5a6b7c8d9"%string eq_refl _))))
    [("id", JStr alice_id)] eq_refl).
  discriminate.
Defined.

(** C1 as stated fails on a header that is present and empty: its token
    does not verify, yet the answer is the one for an absent header, not
    "Invalid or expired token". *)
Lemma userMiddleware_empty_header_counterexample :
  let req := mkRequest (Some "") None in
  authorization req <> None
  /\ @jwt_verify demoPlatform 0 (tokenOf "") (@JWT_PASSWORD demoPlatform)
       = inl JsonWebTokenError
  /\ userMiddleware (P := demoPlatform) 0 req
       = Responded (reject 401 "Authorization header is required")
  /\ userMiddleware (P := demoPlatform) 0 req
       <> Responded (reject 401 "Invalid or expired token").
Proof.
  simpl. repeat split; try discriminate; reflexivity.
Qed.

(** ** Deleting content *)

Lemma contentMatches_owned (A : ObjectId) (contentId : string) (c : Content) :
  contentMatches (ownedFilter A contentId) c = true
  <-> content_id c = castObjectId contentId /\ content_userId c = A.
Proof.
  unfold contentMatches, ownedFilter. simpl.
  rewrite andb_true_iff, !String.eqb_eq. intuition congruence.
Qed.

Lemma deleteContentById_run (A : ObjectId) (contentId : string) (st : Store) :
  matchesObjectIdFormat contentId = true ->
  deleteContentById A contentId st
  = let (rest, deletedCount) :=
      removeFirst (contentMatches (ownedFilter A contentId)) (contents st) in
    mkHandled
      (if Nat.eqb deletedCount 0
       then reject 404 "Content not found or not authorized to delete"
       else json (BMessage "Content deleted successfully"))
      (mkStore (users st) rest (links st))
      [Content_deleteOne (ownedFilter A contentId)].
Proof.
  intros Hfmt.
  unfold deleteContentById, deleteOwned, try_catch, bind, ContentModel_deleteOne.
  rewrite Hfmt. simpl. fold (ownedFilter A contentId).
  destruct (removeFirst _ (contents st)) as [rest n]. simpl.
  destruct (Nat.eqb n 0); reflexivity.
Qed.

Lemma deleteContentById_bad_format (A : ObjectId) (contentId : string) (st : Store) :
  matchesObjectIdFormat contentId = false ->
  deleteContentById A contentId st
  = mkHandled (reject 400 "Invalid content ID format") st [].
Proof.
  intros Hfmt. unfold deleteContentById, deleteOwned, try_catch.
  rewrite Hfmt. reflexivity.
Qed.

(** When no document carries both the identifier and the owner, the
    delete answers 404 and changes nothing. *)
Lemma deleteContentById_no_match (A : ObjectId) (contentId : string) (st : Store) :
  matchesObjectIdFormat contentId = true ->
  (forall c, In c (contents st) ->
     content_id c = castObjectId contentId -> content_userId c <> A) ->
  response (deleteContentById A contentId st)
    = reject 404 "Content not found or not authorized to delete"
  /\ store (deleteContentById A contentId st) = st.
Proof.
  intros Hfmt Hnone. rewrite deleteContentById_run by assumption.
  rewrite removeFirst_none.
  - simpl. split; [reflexivity | apply store_eta].
  - intros c Hc. destruct (contentMatches _ c) eqn:E; [|reflexivity].
    apply contentMatches_owned in E. destruct E as [Hid Hown].
    exfalso. exact (Hnone c Hc Hid Hown).
Qed.

Lemma NoDup_map_unique {A B : Type} (f : A -> B) (l : list A) (x y : A) :
  NoDup (map f l) -> In x l -> In y l -> f x = f y -> x = y.
Proof.
  induction l as [|a l IH]; simpl; intros Hnd Hx Hy Hf; [contradiction|].
  inversion Hnd as [|? ? Hnotin Hnd']; subst.
  destruct Hx as [-> | Hx], Hy as [-> | Hy]; auto.
  - exfalso. apply Hnotin. rewrite Hf. now apply in_map.
  - exfalso. apply Hnotin. rewrite <- Hf. now apply in_map.
Qed.

(** C2.  The delete by identifier issues one [deleteOne] whose filter holds
    both the identifier and the requester [A]; a document leaves the store
    only if [A] owns it; and when the document named is owned by another
    user the answer is the 404 given for an identifier that names nothing,
    with the store as it was. *)
Theorem deleteContentById_owner_scoped (A : ObjectId) (contentId : string) (st : Store) :
  (matchesObjectIdFormat contentId = true ->
     trace (deleteContentById A contentId st)
       = [Content_deleteOne
            (mkContentFilter (Some (castObjectId contentId)) (Some A))])
  /\ (matchesObjectIdFormat contentId = false ->
        trace (deleteContentById A contentId st) = [])
  /\ (store (deleteContentById A contentId st) = st
      \/ exists before c after,
           contents st = before ++ c :: after
           /\ store (deleteContentById A contentId st)
                = mkStore (users st) (before ++ after) (links st)
           /\ content_userId c = A
           /\ content_id c = castObjectId contentId)
  /\ (forall c B,
        matchesObjectIdFormat contentId = true ->
        NoDup (map content_id (contents st)) ->
        In c (contents st) ->
        content_id c = castObjectId contentId ->
        content_userId c = B -> B <> A ->
        response (deleteContentById A contentId st)
          = reject 404 "Content not found or not authorized to delete"
        /\ store (deleteContentById A contentId st) = st)
  /\ (matchesObjectIdFormat contentId = true ->
      (forall c, In c (contents st) -> content_id c <> castObjectId contentId) ->
      response (deleteContentById A contentId st)
        = reject 404 "Content not found or not authorized to delete"
      /\ store (deleteContentById A contentId st) = st).
Proof.
  split; [|split; [|split; [|split]]].
  - intros Hfmt. rewrite deleteContentById_run by assumption.
    destruct (removeFirst _ _). reflexivity.
  - intros Hfmt. now rewrite deleteContentById_bad_format.
  - destruct (matchesObjectIdFormat contentId) eqn:Hfmt.
    + rewrite deleteContentById_run by assumption.
      destruct (removeFirst_cases (contentMatches (ownedFilter A contentId)) (contents st))
        as [[E _] | (b & c & a & El & Hc & _ & E)]; rewrite E; simpl.
      * left. apply store_eta.
      * right. exists b, c, a. apply contentMatches_owned in Hc. tauto.
    + left. now rewrite deleteContentById_bad_format.
  - intros c B Hfmt Hnd Hc Hid Hown HB.
    apply deleteContentById_no_match; [assumption|].
    intros c' Hc' Hid'. rewrite <- Hid in Hid'.
    rewrite (NoDup_map_unique content_id _ c' c Hnd Hc' Hc Hid'). congruence.
  - intros Hfmt Hnone.
    apply deleteContentById_no_match; [assumption|].
    intros c' Hc' Hid'. exfalso. exact (Hnone c' Hc' Hid').
Qed.

(** Alice names Bob's item: 404, and the store is as it was. *)
Lemma deleteContentById_owner_scoped_witness :
  response (deleteContentById alice_id item_id demoStore)
    = reject 404 "Content not found or not authorized to delete"
  /\ store (deleteContentById alice_id item_id demoStore) = demoStore.
Proof.
  refine (proj1 (proj2 (proj2 (proj2
    (deleteContentById_owner_scoped alice_id item_id demoStore))))
    (mkContent item_id "https://x.com/1" twitter "t" bob_id []) bob_id
    eq_refl _ _ eq_refl eq_refl _).
  - simpl. constructor; [intros [] | constructor].
  - simpl. left. reflexivity.
  - discriminate.
Defined.

Lemma deleteOwned_returns (u : ObjectId) (contentId : string) (st : Store) :
  exists r, value (deleteOwned u contentId st) = inr r.
Proof.
  unfold deleteOwned, bind, ContentModel_deleteOne.
  destruct (matchesObjectIdFormat contentId); simpl; [|eexists; reflexivity].
  destruct (removeFirst _ _) as [rest n]. simpl.
  destruct (Nat.eqb n 0); eexists; reflexivity.
Qed.

Lemma deleteContentSchema_accepts (body : Json) (contentId : string) :
  field "contentId" body = Some (JStr contentId) -> contentId <> "" ->
  deleteContentSchema body = inr contentId.
Proof.
  intros Hf Hne. unfold deleteContentSchema, z_object.
  destruct body; simpl in Hf; try discriminate.
  simpl. rewrite Hf. simpl.
  destruct contentId; [contradiction | reflexivity].
Qed.

(** C9.  For a non-empty identifier the delete that takes it from the body
    and the delete that takes it from the path give the same response,
    leave the same store and make the same store calls. *)
Theorem delete_endpoints_agree (u : ObjectId) (contentId : string) (body : Json)
    (st : Store) :
  contentId <> "" ->
  field "contentId" body = Some (JStr contentId) ->
  deleteContent u body st = deleteContentById u contentId st.
Proof.
  intros Hne Hf. unfold deleteContent, deleteContentById.
  rewrite (deleteContentSchema_accepts body Hf Hne), try_catch_lift_inr.
  unfold try_catch.
  destruct (deleteOwned_returns u contentId st) as [r Hr]. now rewrite Hr.
Qed.

(** Bob deletes his item through either endpoint. *)
Lemma delete_endpoints_agree_witness :
  deleteContent bob_id (JObj [("contentId", JStr item_id)]) demoStore
  = deleteContentById bob_id item_id demoStore
  /\ status (response (deleteContentById bob_id item_id demoStore)) = 200
  /\ contents (store (deleteContentById bob_id item_id demoStore)) = [].
Proof.
  split; [| split; reflexivity].
  apply (@delete_endpoints_agree bob_id item_id
           (JObj [("contentId", JStr item_id)]) demoStore).
  - discriminate.
  - reflexivity.
Defined.

(** ** Signing in *)

Lemma userMatches_byUsername (name : string) (u : User) :
  userMatches (byUsername name) u = true <-> username u = name.
Proof.
  unfold userMatches, byUsername. simpl. rewrite String.eqb_eq. intuition congruence.
Qed.

Lemma signin_run {P : Platform} (now : Z) (body : Json) (name pw : string) (st : Store) :
  signinSchema body = inr (name, pw) ->
  signin now body st
  = mkHandled
      (match find (userMatches (byUsername name)) (users st) with
       | None => reject 403 "Invalid credentials"
       | Some existingUser =>
           if bcrypt_compare pw (password existingUser)
           then json (BToken (jwt_sign now [("id", JStr (user_id existingUser))]
                                JWT_PASSWORD))
           else reject 403 "Invalid credentials"
       end)
      st [User_findOne (byUsername name)].
Proof.
  intros Hv. unfold signin. rewrite Hv, try_catch_lift_inr.
  unfold try_catch, bind, UserModel_findOne. cbn [value final calls app].
  fold (byUsername name).
  destruct (find _ (users st)) as [usr|]; [|reflexivity].
  unfold storedHash. rewrite or_else_self.
  destruct (bcrypt_compare pw (password usr)); reflexivity.
Qed.

Lemma signin_invalid {P : Platform} (now : Z) (body : Json) (e : Thrown) (st : Store) :
  signinSchema body = inl e ->
  exists issues, signin now body st = mkHandled (validationError issues) st [].
Proof.
  intros Hv. unfold signin. rewrite Hv, try_catch_lift_inl.
  unfold signinSchema, z_object in Hv.
  destruct body; try (injection Hv as <-; eexists; reflexivity).
  destruct (z_and _ _); [injection Hv as <-; eexists; reflexivity | discriminate].
Qed.

(** C3, for requests that pass validation.  When both bodies hold a
    non-empty username and password (they parse under [signinSchema]), a
    wrong password for a username of the store and any password for a
    username the store does not hold get the same response, 403 "Invalid
    credentials", and neither changes the store. *)
Theorem signin_no_username_enumeration {P : Platform} (now : Z) (st : Store)
    (body1 body2 : Json) (name1 pw1 name2 pw2 : string) :
  signinSchema body1 = inr (name1, pw1) ->
  signinSchema body2 = inr (name2, pw2) ->
  (exists u, In u (users st) /\ username u = name1) ->
  (forall u, In u (users st) -> username u = name1 ->
     bcrypt_compare pw1 (password u) = false) ->
  (forall u, In u (users st) -> username u <> name2) ->
  response (signin now body1 st) = reject 403 "Invalid credentials"
  /\ response (signin now body2 st) = response (signin now body1 st)
  /\ store (signin now body1 st) = st
  /\ store (signin now body2 st) = st.
Proof.
  intros Hv1 Hv2 [u [Hu Hname]] Hwrong Habsent.
  rewrite (signin_run now body1 st Hv1), (signin_run now body2 st Hv2). simpl.
  assert (E2 : find (userMatches (byUsername name2)) (users st) = None).
  { apply find_none_iff. intros x Hx.
    destruct (userMatches (byUsername name2) x) eqn:E; [|reflexivity].
    apply userMatches_byUsername in E. exfalso. exact (Habsent x Hx E). }
  rewrite E2.
  destruct (find (userMatches (byUsername name1)) (users st)) as [usr|] eqn:E1.
  - apply find_some in E1. destruct E1 as [Hin Hm].
    apply userMatches_byUsername in Hm. rewrite (Hwrong usr Hin Hm). auto.
  - auto.
Qed.

(** Alice with a wrong password and an unknown Carol are told the same. *)
Lemma signin_no_username_enumeration_witness :
  response (signin (P := demoPlatform) 0 (credentials "alice" "guess") demoStore)
    = reject 403 "Invalid credentials"
  /\ response (signin (P := demoPlatform) 0 (credentials "carol" "secret1") demoStore)
     = response (signin (P := demoPlatform) 0 (credentials "alice" "guess") demoStore)
  /\ store (signin (P := demoPlatform) 0 (credentials "alice" "guess") demoStore) = demoStore
  /\ store (signin (P := demoPlatform) 0 (credentials "carol" "secret1") demoStore) = demoStore.
Proof.
  apply (@signin_no_username_enumeration demoPlatform 0 demoStore
           (credentials "alice" "guess") (credentials "carol" "secret1")
           "alice" "guess" "carol" "secret1" eq_refl eq_refl).
  - exists (mkUser alice_id "alice" "salt$secret1"). simpl. auto.
  - simpl. intros u [<- | [<- | []]]; simpl; [reflexivity | discriminate].
  - simpl. intros u [<- | [<- | []]]; simpl; discriminate.
Defined.

(** C3 as stated fails on a request that does not pass validation: an
    empty password for Alice, who exists, is answered 400, while a password
    for Carol, who does not, is answered 403. *)
Lemma signin_parity_counterexample :
  In "alice" (map username (users demoStore))
  /\ ~ In "carol" (map username (users demoStore))
  /\ @bcrypt_compare demoPlatform "" "salt$secret1" = false
  /\ status (response (signin (P := demoPlatform) 0 (credentials "alice" "") demoStore)) = 400
  /\ response (signin (P := demoPlatform) 0 (credentials "carol" "secret1") demoStore)
       = reject 403 "Invalid credentials"
  /\ response (signin (P := demoPlatform) 0 (credentials "alice" "") demoStore)
       <> response (signin (P := demoPlatform) 0 (credentials "carol" "secret1") demoStore).
Proof.
  repeat split; simpl; try reflexivity; try discriminate; auto.
  intros [H | [H | []]]; discriminate.
Qed.

Lemma append_assoc' (a b c : string) : ((a ++ b) ++ c = a ++ (b ++ c))%string.
Proof. induction a; simpl; [reflexivity | now rewrite IHa]. Qed.

Lemma take_append (p s : string) : take (String.length p) (p ++ s)%string = p.
Proof. induction p; simpl; [destruct s; reflexivity | now rewrite IHp]. Qed.

Lemma count_strokes_strokes (n : nat) (c : ascii) (s : string) :
  Ascii.eqb c "1" = false ->
  count_strokes (strokes n ++ String c s)%string = (n, String c s).
Proof.
  intros Hc. induction n as [|n IH]; simpl.
  - now rewrite Hc.
  - now rewrite IH.
Qed.

(** The plain tokens decode to what was put in them. *)
Lemma plain_decode_token (signature : string) (iat : Z) (id : string) :
  plain_decode (plain_token signature iat id)
  = Some (mkJws (JObj [("id", JStr id); ("iat", JNum iat)]) signature).
Proof.
  unfold plain_decode, plain_token, plain_number.
  change ("." ++ signature ++ (strokes (Z.abs_nat iat) ++ (if Z.ltb iat 0 then "-" else "+")) ++ id)%string
    with (String "." (signature ++ (strokes (Z.abs_nat iat) ++ (if Z.ltb iat 0 then "-" else "+")) ++ id))%string.
  rewrite count_strokes_strokes by reflexivity.
  cbn [Ascii.eqb Bool.eqb]. rewrite substring_from_append, take_append, append_assoc'.
  destruct (Z.ltb iat 0) eqn:Hs.
  - change ("-" ++ id)%string with (String "-" id).
    rewrite count_strokes_strokes by reflexivity. cbn.
    apply Z.ltb_lt in Hs.
    replace (- Z.of_nat (Z.abs_nat iat))%Z with iat by lia. reflexivity.
  - change ("+" ++ id)%string with (String "+" id).
    rewrite count_strokes_strokes by reflexivity. cbn.
    apply Z.ltb_ge in Hs.
    replace (Z.of_nat (Z.abs_nat iat)) with iat by lia. reflexivity.
Qed.

Lemma identity_claims (now : Z) (id : string) :
  stamp now [("id", JStr id)] = [("id", JStr id); ("iat", JNum (seconds now))].
Proof. reflexivity. Qed.

(** The second platform's token library is jsonwebtoken. *)
Lemma stampedPlatform_jsonwebtoken : Jsonwebtoken stampedPlatform.
Proof.
  refine (@Build_Jsonwebtoken stampedPlatform plain_hmac plain_decode _ _).
  - intros now id secret. rewrite identity_claims. apply plain_decode_token.
  - reflexivity.
Defined.

Section TokenLibrary.
Context {P : Platform} {J : Jsonwebtoken P}.

(** A token signed over an identity verifies under the same secret at any
    time, to the identity and the time of signing. *)
Lemma verify_identity_token (issued later : Z) (id secret : string) :
  jwt_verify later (jwt_sign issued [("id", JStr id)] secret) secret
  = inr (JObj [("id", JStr id); ("iat", JNum (seconds issued))]).
Proof.
  rewrite verify_is. unfold jsonwebtoken_verify.
  rewrite sign_identity, identity_claims. cbn [jws_payload jws_signature].
  rewrite String.eqb_refl. reflexivity.
Qed.

(** Under a secret that signs the same content differently it does not
    verify. *)
Lemma verify_other_secret (issued later : Z) (id secret secret' : string) :
  hmac secret' (JObj [("id", JStr id); ("iat", JNum (seconds issued))])
    <> hmac secret (JObj [("id", JStr id); ("iat", JNum (seconds issued))]) ->
  jwt_verify later (jwt_sign issued [("id", JStr id)] secret) secret'
  = inl JsonWebTokenError.
Proof.
  intros Hne. rewrite verify_is. unfold jsonwebtoken_verify.
  rewrite sign_identity, identity_claims. cbn [jws_payload jws_signature].
  apply String.eqb_neq in Hne. now rewrite Hne.
Qed.

Lemma userMiddleware_accepts_signed (issued later : Z) (id : string) :
  let token := jwt_sign issued [("id", JStr id)] JWT_PASSWORD in
  userMiddleware later (mkRequest (Some ("Bearer " ++ token)%string) None)
  = Next (mkRequest (Some ("Bearer " ++ token)%string) (Some (JStr id))).
Proof.
  intros token. unfold userMiddleware.
  cbn [authorization]. change (is_empty ("Bearer " ++ token)%string) with false.
  cbv iota. rewrite tokenOf_bearer. unfold token.
  rewrite verify_identity_token. reflexivity.
Qed.

(** C8, with the claim the token library adds.  A signin that answers with
    a token has found a user of the store under the request's username
    whose stored hash the password matches; the token is signed under
    [JWT_PASSWORD] from the payload [{id}] of that user, with no option
    given.  With jsonwebtoken as the token library, the token holds two
    claims, that [id] and the issued-at time [iat] stamped at signing, and
    no expiry: it verifies to exactly these at every time, the middleware
    then binds exactly that identifier, and under a secret that signs the
    content differently it does not verify. *)
Theorem signin_issues_identity_token (now : Z) (body : Json) (st : Store)
    (token : string) :
  response (signin now body st) = json (BToken token) ->
  exists (usr : User) (pw : string),
    In usr (users st)
    /\ signinSchema body = inr (username usr, pw)
    /\ bcrypt_compare pw (password usr) = true
    /\ token = jwt_sign now [("id", JStr (user_id usr))] JWT_PASSWORD
    /\ store (signin now body st) = st
    /\ jws_decode token
       = Some (mkJws (JObj [("id", JStr (user_id usr)); ("iat", JNum (seconds now))])
                 (hmac JWT_PASSWORD
                    (JObj [("id", JStr (user_id usr)); ("iat", JNum (seconds now))])))
    /\ (forall later,
          jwt_verify later token JWT_PASSWORD
          = inr (JObj [("id", JStr (user_id usr)); ("iat", JNum (seconds now))]))
    /\ (forall later,
          userMiddleware later (mkRequest (Some ("Bearer " ++ token)%string) None)
          = Next (mkRequest (Some ("Bearer " ++ token)%string)
                    (Some (JStr (user_id usr)))))
    /\ (forall later secret,
          hmac secret (JObj [("id", JStr (user_id usr)); ("iat", JNum (seconds now))])
            <> hmac JWT_PASSWORD
                 (JObj [("id", JStr (user_id usr)); ("iat", JNum (seconds now))]) ->
          jwt_verify later token secret = inl JsonWebTokenError).
Proof.
  intros Hok.
  destruct (signinSchema body) as [e | [name pw]] eqn:Hv.
  - destruct (signin_invalid now body st Hv) as [issues E].
    rewrite E in Hok. discriminate.
  - rewrite (signin_run now body st Hv) in *. cbn [response store] in *.
    destruct (find (userMatches (byUsername name)) (users st)) as [usr|] eqn:Ef;
      [|discriminate].
    destruct (bcrypt_compare pw (password usr)) eqn:Ec; [|discriminate].
    injection Hok as <-.
    apply find_some in Ef. destruct Ef as [Hin Hm].
    apply userMatches_byUsername in Hm. subst name.
    exists usr, pw.
    split; [assumption|]. split; [reflexivity|]. split; [assumption|].
    split; [reflexivity|]. split; [reflexivity|].
    split; [rewrite sign_identity, identity_claims; reflexivity|].
    split; [intros later; apply verify_identity_token|].
    split; [intros later; apply userMiddleware_accepts_signed|].
    intros later secret Hne. now apply verify_other_secret.
Qed.

End TokenLibrary.

(** Alice signs in at second 5; her token verifies to her identifier and
    that time, and binds her identifier a day later. *)
Lemma signin_issues_identity_token_witness :
  response (signin (P := stampedPlatform) 5000 (credentials "alice" "secret1") demoStore)
    = json (BToken "1111111.!12312311111+64b7f0c2a1d3e4f5a6b7c8d9")
  /\ @jwt_verify stampedPlatform 86400000
       "1111111.!12312311111+64b7f0c2a1d3e4f5a6b7c8d9" (@JWT_PASSWORD stampedPlatform)
     = inr (JObj [("id", JStr alice_id); ("iat", JNum 5)])
  /\ userMiddleware (P := stampedPlatform) 86400000
       (mkRequest (Some "Bearer 1111111.!12312311111+64b7f0c2a1d3e4f5a6b7c8d9") None)
     = Next (mkRequest (Some "Bearer 1111111.!12312311111+64b7f0c2a1d3e4f5a6b7c8d9")
               (Some (JStr alice_id))).
Proof.
  split; [reflexivity|].
  destruct (@signin_issues_identity_token stampedPlatform stampedPlatform_jsonwebtoken
              5000 (credentials "alice" "secret1") demoStore
              "1111111.!12312311111+64b7f0c2a1d3e4f5a6b7c8d9" eq_refl)
    as (usr & pw & _ & _ & _ & Ht & _ & Hd & Hv & Hmw & _).
  assert (Hid : user_id usr = alice_id).
  { cbv in Hd. injection Hd as Hid. now symmetry. }
  rewrite Hid in Hv, Hmw.
  split; [exact (Hv 86400000%Z) | exact (Hmw 86400000%Z)].
Defined.

(** C8 as stated fails on what the token holds: with jsonwebtoken the
    token Alice is issued carries an issued-at claim beside her identity,
    so its payload is not the single claim [{id}]. *)
Lemma signin_token_claims_counterexample :
  response (signin (P := stampedPlatform) 5000 (credentials "alice" "secret1") demoStore)
    = json (BToken "1111111.!12312311111+64b7f0c2a1d3e4f5a6b7c8d9")
  /\ @jwt_verify stampedPlatform 5000
       "1111111.!12312311111+64b7f0c2a1d3e4f5a6b7c8d9" (@JWT_PASSWORD stampedPlatform)
     = inr (JObj [("id", JStr alice_id); ("iat", JNum 5)])
  /\ field "iat" (JObj [("id", JStr alice_id); ("iat", JNum 5)]) = Some (JNum 5)
  /\ JObj [("id", JStr alice_id); ("iat", JNum 5)] <> JObj [("id", JStr alice_id)].
Proof.
  repeat split; try reflexivity. discriminate.
Qed.

(** ** Signing up *)

Lemma z_string_inr (path : string) (v : option Json) (s : string) :
  z_string path v = inr s -> v = Some (JStr s).
Proof. unfold z_string. intros H. parse_cases. congruence. Qed.

Lemma z_check_inr {A : Type} (ok : A -> bool) (issue : ZodIssue) (r : Parsed A) (a : A) :
  z_check ok issue r = inr a -> r = inr a /\ ok a = true.
Proof. unfold z_check. intros H. parse_cases. split; congruence. Qed.

Lemma z_and_inr {A B : Type} (a : Parsed A) (b : Parsed B) (x : A) (y : B) :
  z_and a b = inr (x, y) -> a = inr x /\ b = inr y.
Proof. unfold z_and. destruct a, b; intros H; try discriminate. split; congruence. Qed.

Lemma z_object_inr {A : Type} (fields : Json -> Parsed A) (body : Json) (a : A) :
  z_object fields body = inr a -> fields body = inr a.
Proof. unfold z_object. intros H. parse_cases. congruence. Qed.

(** What [signupSchema] lets through. *)
Lemma signupSchema_inr (body : Json) (name pw : string) :
  signupSchema body = inr (name, pw) ->
  field "username" body = Some (JStr name)
  /\ field "password" body = Some (JStr pw)
  /\ 3 <= String.length name <= 50
  /\ 6 <= String.length pw <= 100.
Proof.
  intros H. apply z_object_inr, z_and_inr in H. destruct H as [Hu Hp].
  unfold z_max, z_min in *.
  apply z_check_inr in Hu. destruct Hu as [Hu Hu2].
  apply z_check_inr in Hu. destruct Hu as [Hu Hu1].
  apply z_check_inr in Hp. destruct Hp as [Hp Hp2].
  apply z_check_inr in Hp. destruct Hp as [Hp Hp1].
  apply z_string_inr in Hu, Hp.
  apply Nat.leb_le in Hu1, Hu2, Hp1, Hp2. auto.
Qed.

Lemma signup_run {P : Platform} (body : Json) (salt : string) (oid : ObjectId)
    (name pw : string) (st : Store) :
  signupSchema body = inr (name, pw) ->
  signup body salt oid st
  = if existsb (takenBy name oid) (users st)
    then mkHandled (reject 409 "Username already exists") st
           [User_create name (bcrypt_hash pw 10 salt)]
    else mkHandled (json (BMessage "User signed up successfully"))
           (mkStore (users st ++ [mkUser oid name (bcrypt_hash pw 10 salt)])
              (contents st) (links st))
           [User_create name (bcrypt_hash pw 10 salt)].
Proof.
  intros Hv. unfold signup. rewrite Hv, try_catch_lift_inr.
  unfold try_catch, bind, UserModel_create. fold (takenBy name oid).
  destruct (existsb _ (users st)); reflexivity.
Qed.

Lemma signup_invalid {P : Platform} (body : Json) (salt : string) (oid : ObjectId)
    (e : Thrown) (st : Store) :
  signupSchema body = inl e ->
  exists issues, signup body salt oid st = mkHandled (validationError issues) st [].
Proof.
  intros Hv. unfold signup. rewrite Hv, try_catch_lift_inl.
  unfold signupSchema, z_object in Hv.
  destruct body; try (injection Hv as <-; eexists; reflexivity).
  destruct (z_and _ _); [injection Hv as <-; eexists; reflexivity | discriminate].
Qed.

Lemma existsb_takenBy (name : string) (oid : ObjectId) (l : list User) :
  In name (map username l) -> existsb (takenBy name oid) l = true.
Proof.
  intros Hin. apply in_map_iff in Hin. destruct Hin as (u & Hu & Hin).
  apply existsb_exists. exists u. split; [assumption|].
  unfold takenBy. rewrite Hu, String.eqb_refl. reflexivity.
Qed.

Lemma not_taken_fresh (name : string) (oid : ObjectId) (l : list User) :
  existsb (takenBy name oid) l = false -> ~ In name (map username l).
Proof.
  intros Hf Hin. rewrite (existsb_takenBy name oid l Hin) in Hf. discriminate.
Qed.

(** C7, for requests that pass validation, with what holds of all
    requests.  A signup whose body parses under [signupSchema] and whose
    username is that of a user of the store is answered 409 "Username
    already exists" and leaves the store unchanged.  Whatever the body, a
    signup under a username of the store leaves the store unchanged, and
    a store in which no two users share a username stays so. *)
Theorem signup_duplicate_username {P : Platform} (body : Json) (salt : string)
    (oid : ObjectId) (st : Store) :
  (forall name pw,
     signupSchema body = inr (name, pw) ->
     In name (map username (users st)) ->
     response (signup body salt oid st) = reject 409 "Username already exists"
     /\ store (signup body salt oid st) = st)
  /\ (forall name,
        field "username" body = Some (JStr name) ->
        In name (map username (users st)) ->
        store (signup body salt oid st) = st)
  /\ (NoDup (map username (users st)) ->
      NoDup (map username (users (store (signup body salt oid st))))).
Proof.
  split; [|split].
  - intros name pw Hv Hin. rewrite (signup_run body salt oid st Hv).
    rewrite (existsb_takenBy name oid _ Hin). auto.
  - intros name Hf Hin.
    destruct (signupSchema body) as [e | [name' pw]] eqn:Hv.
    + destruct (signup_invalid body salt oid st Hv) as [issues E]. now rewrite E.
    + destruct (signupSchema_inr body Hv) as [Hf' _].
      assert (name' = name) by congruence. subst name'.
      rewrite (signup_run body salt oid st Hv), (existsb_takenBy name oid _ Hin).
      reflexivity.
  - intros Hnd.
    destruct (signupSchema body) as [e | [name pw]] eqn:Hv.
    + destruct (signup_invalid body salt oid st Hv) as [issues E]. now rewrite E.
    + rewrite (signup_run body salt oid st Hv).
      destruct (existsb (takenBy name oid) (users st)) eqn:Et; [assumption|].
      cbn [store users]. rewrite map_app. cbn [map username].
      apply NoDup_app; [assumption | repeat constructor; intros [] |].
      intros x Hx [<- | []]. exact (not_taken_fresh name oid _ Et Hx).
Qed.

(** A second signup as Alice with a well-formed password. *)
Lemma signup_duplicate_username_witness :
  response (signup (P := demoPlatform) (credentials "alice" "another6") "salt" item_id demoStore)
    = reject 409 "Username already exists"
  /\ store (signup (P := demoPlatform) (credentials "alice" "another6") "salt" item_id demoStore)
     = demoStore.
Proof.
  apply (proj1 (@signup_duplicate_username demoPlatform
                  (credentials "alice" "another6") "salt" item_id demoStore)
           "alice" "another6" eq_refl).
  simpl. left. reflexivity.
Defined.

(** C7 as stated fails on a request that does not pass validation: a
    signup as Alice, who exists, with a one-character password is answered
    400, not 409. *)
Lemma signup_conflict_counterexample :
  In "alice" (map username (users demoStore))
  /\ response (signup (P := demoPlatform) (credentials "alice" "x") "salt" item_id demoStore)
     = validationError [too_small "password" "Password must be at least 6 characters"]
  /\ status (response (signup (P := demoPlatform) (credentials "alice" "x") "salt" item_id
                         demoStore)) <> 409.
Proof.
  repeat split; simpl; auto. discriminate.
Qed.

(** ** Sharing *)

Lemma linkMatches_byOwner (u : ObjectId) (l : Link) :
  linkMatches (byOwner u) l = String.eqb u (link_userId l).
Proof. reflexivity. Qed.

Lemma linkMatches_byHash (h : string) (l : Link) :
  linkMatches (byHash h) l = true <-> hash l = h.
Proof.
  unfold linkMatches, byHash. simpl. rewrite andb_true_r, String.eqb_eq.
  intuition congruence.
Qed.

Lemma linksOf_nil_iff (u : ObjectId) (st : Store) :
  linksOf u st = [] <-> (forall l, In l (links st) -> link_userId l <> u).
Proof.
  unfold linksOf. split.
  - intros E l Hl Hu.
    assert (Hin : In l (filter (fun l => String.eqb u (link_userId l)) (links st))).
    { apply filter_In. split; [assumption|]. apply String.eqb_eq. congruence. }
    rewrite E in Hin. contradiction.
  - intros H. apply find_none_filter, find_none_iff. intros l Hl.
    apply String.eqb_neq. intros E. exact (H l Hl (eq_sym E)).
Qed.

Lemma shareBrain_enable_run (u : ObjectId) (body : Json) (draw : nat -> nat) (st : Store) :
  shareSchema body = inr true ->
  shareBrain u body draw st
  = match find (linkMatches (byOwner u)) (links st) with
    | Some existingLink =>
        mkHandled (json (BHash (hash existingLink))) st [Link_findOne (byOwner u)]
    | None =>
        mkHandled (json (BHash (random 10 draw)))
          (mkStore (users st) (contents st) (links st ++ [mkLink (random 10 draw) u]))
          [Link_findOne (byOwner u); Link_create u (random 10 draw)]
    end.
Proof.
  intros Hv. unfold shareBrain. rewrite Hv, try_catch_lift_inr.
  unfold try_catch, bind, LinkModel_findOne, LinkModel_create.
  cbn [value final calls app]. fold (byOwner u).
  destruct (find _ (links st)); reflexivity.
Qed.

Lemma shareBrain_disable_run (u : ObjectId) (body : Json) (draw : nat -> nat) (st : Store) :
  shareSchema body = inr false ->
  shareBrain u body draw st
  = mkHandled (json (BMessage "Removed link"))
      (mkStore (users st) (contents st)
         (fst (removeFirst (linkMatches (byOwner u)) (links st))))
      [Link_deleteOne (byOwner u)].
Proof.
  intros Hv. unfold shareBrain. rewrite Hv, try_catch_lift_inr.
  unfold try_catch, bind, LinkModel_deleteOne. fold (byOwner u).
  destruct (removeFirst _ (links st)); reflexivity.
Qed.

Lemma shareBrain_invalid (u : ObjectId) (body : Json) (draw : nat -> nat) (e : Thrown)
    (st : Store) :
  shareSchema body = inl e -> store (shareBrain u body draw st) = st.
Proof. intros Hv. unfold shareBrain. now rewrite Hv, try_catch_lift_inl. Qed.

(** ** Stores the requests can produce *)

Lemma consistent_empty : Consistent emptyStore.
Proof. constructor; simpl; auto; intros ? []. Qed.

(** A request that leaves the links alone and removes no user keeps the
    store consistent. *)
Lemma consistent_same_links (st st' : Store) :
  links st' = links st ->
  (forall u, isUser u st -> isUser u st') ->
  Consistent st -> Consistent st'.
Proof.
  intros El Hu [H1 H2 H3]. constructor; unfold linksOf in *; rewrite El; auto.
Qed.

Lemma signup_keeps {P : Platform} (body : Json) (salt : string) (oid : ObjectId)
    (st : Store) :
  links (store (signup body salt oid st)) = links st
  /\ forall u, isUser u st -> isUser u (store (signup body salt oid st)).
Proof.
  destruct (signupSchema body) as [e | [name pw]] eqn:Hv.
  - destruct (signup_invalid body salt oid st Hv) as [issues E]. rewrite E. auto.
  - rewrite (signup_run body salt oid st Hv).
    destruct (existsb _ _); cbn [store links users]; [auto|].
    split; [reflexivity|]. unfold isUser. cbn [users]. intros u Hu.
    rewrite map_app, in_app_iff. now left.
Qed.

Lemma addContent_keeps {P : Platform} (u : ObjectId) (body : Json) (oid : ObjectId)
    (st : Store) :
  links (store (addContent u body oid st)) = links st
  /\ users (store (addContent u body oid st)) = users st.
Proof.
  unfold addContent.
  destruct (contentSchema body) as [e | [[l t] ti]].
  - rewrite try_catch_lift_inl. auto.
  - rewrite try_catch_lift_inr. unfold try_catch, bind, ContentModel_create.
    destruct (existsb _ _); auto.
Qed.

Lemma deleteContentById_keeps (u : ObjectId) (contentId : string) (st : Store) :
  links (store (deleteContentById u contentId st)) = links st
  /\ users (store (deleteContentById u contentId st)) = users st.
Proof.
  destruct (matchesObjectIdFormat contentId) eqn:Hfmt.
  - rewrite deleteContentById_run by assumption.
    destruct (removeFirst _ _). auto.
  - rewrite deleteContentById_bad_format by assumption. auto.
Qed.

Lemma deleteContent_keeps (u : ObjectId) (body : Json) (st : Store) :
  links (store (deleteContent u body st)) = links st
  /\ users (store (deleteContent u body st)) = users st.
Proof.
  unfold deleteContent.
  destruct (deleteContentSchema body) as [e | contentId].
  - rewrite try_catch_lift_inl. auto.
  - rewrite try_catch_lift_inr.
    change (links (store (try_catch (deleteOwned u contentId)
                            (fun error => match error with
                                          | ZodError issues => validationError issues
                                          | _ => reject 500 "Failed to delete content"
                                          end) st)))
      with (links (store (deleteContentById u contentId st))).
    change (users (store (try_catch (deleteOwned u contentId)
                            (fun error => match error with
                                          | ZodError issues => validationError issues
                                          | _ => reject 500 "Failed to delete content"
                                          end) st)))
      with (users (store (deleteContentById u contentId st))).
    apply deleteContentById_keeps.
Qed.

Lemma removeFirst_filter_le {A : Type} (p q : A -> bool) (l : list A) :
  List.length (filter q (fst (removeFirst p l))) <= List.length (filter q l).
Proof.
  induction l as [|x l IH]; simpl; [auto|].
  destruct (p x); simpl.
  - destruct (q x); simpl; lia.
  - destruct (removeFirst p l) as [r n]. simpl in *.
    destruct (q x); simpl; lia.
Qed.

Lemma shareBrain_keeps_users (u : ObjectId) (body : Json) (draw : nat -> nat) (st : Store) :
  users (store (shareBrain u body draw st)) = users st
  /\ contents (store (shareBrain u body draw st)) = contents st.
Proof.
  destruct (shareSchema body) as [e | [|]] eqn:Hv.
  - rewrite (shareBrain_invalid u body draw st Hv). auto.
  - rewrite (shareBrain_enable_run u body draw st Hv).
    destruct (find _ _); auto.
  - rewrite (shareBrain_disable_run u body draw st Hv). auto.
Qed.

Lemma shareBrain_consistent (u : ObjectId) (body : Json) (draw : nat -> nat) (st : Store) :
  isUser u st -> Consistent st -> Consistent (store (shareBrain u body draw st)).
Proof.
  intros Hu Hc.
  destruct (shareSchema body) as [e | [|]] eqn:Hv.
  - now rewrite (shareBrain_invalid u body draw st Hv).
  - rewrite (shareBrain_enable_run u body draw st Hv).
    destruct (find (linkMatches (byOwner u)) (links st)) as [l|] eqn:Ef; [assumption|].
    destruct Hc as [H1 H2 H3]. cbn [store].
    constructor; unfold linksOf, isUser in *; cbn [links users].
    + intros v. rewrite filter_app, length_app. cbn [filter link_userId].
      destruct (String.eqb v u) eqn:Evu.
      * apply String.eqb_eq in Evu. subst v.
        apply find_none_filter in Ef.
        rewrite (filter_ext _ _ (linkMatches_byOwner u)) in Ef.
        rewrite Ef. simpl. lia.
      * specialize (H1 v). simpl. lia.
    + intros l Hl. apply in_app_iff in Hl.
      destruct Hl as [Hl | [<- | []]]; [auto | apply random_length].
    + intros l Hl. apply in_app_iff in Hl. destruct Hl as [Hl | [<- | []]]; auto.
  - rewrite (shareBrain_disable_run u body draw st Hv).
    destruct Hc as [H1 H2 H3]. cbn [store].
    constructor; unfold linksOf, isUser in *; cbn [links users].
    + intros v. specialize (H1 v).
      pose proof (removeFirst_filter_le (linkMatches (byOwner u))
                    (fun l => String.eqb v (link_userId l)) (links st)). lia.
    + intros l Hl. apply removeFirst_incl in Hl. auto.
    + intros l Hl. apply removeFirst_incl in Hl. auto.
Qed.

Lemma serve_consistent {P : Platform} (c : ApiCall) (st : Store) :
  authorized c st -> Consistent st -> Consistent (store (serve c st)).
Proof.
  destruct c as [body salt oid | u body oid | u contentId | u body | u body draw];
    cbn [serve authorized]; intros Ha Hc.
  - destruct (signup_keeps body salt oid st) as [El Hu].
    exact (consistent_same_links _ El Hu Hc).
  - destruct (addContent_keeps u body oid st) as [El Eu].
    apply (consistent_same_links _ El); [|assumption].
    unfold isUser. now rewrite Eu.
  - destruct (deleteContentById_keeps u contentId st) as [El Eu].
    apply (consistent_same_links _ El); [|assumption].
    unfold isUser. now rewrite Eu.
  - destruct (deleteContent_keeps u body st) as [El Eu].
    apply (consistent_same_links _ El); [|assumption].
    unfold isUser. now rewrite Eu.
  - now apply shareBrain_consistent.
Qed.

Lemma reachable_consistent {P : Platform} (st : Store) :
  reachable st -> Consistent st.
Proof.
  induction 1 as [|st c _ IH Ha]; [apply consistent_empty | now apply serve_consistent].
Qed.

(** The demo store arises from two signups and one saved item. *)
Lemma demoStore_reachable : reachable (P := demoPlatform) demoStore.
Proof.
  pose (s1 := store (serve (P := demoPlatform)
                 (Signup (credentials "alice" "secret1") "salt" alice_id) emptyStore)).
  pose (s2 := store (serve (P := demoPlatform)
                 (Signup (credentials "bob" "hunter2") "salt" bob_id) s1)).
  change demoStore with
    (store (serve (P := demoPlatform)
              (AddContent bob_id
                 (JObj [("link", JStr "https://x.com/1"); ("type", JStr "twitter");
                        ("title", JStr "t")]) item_id) s2)).
  apply reachable_serve.
  - apply reachable_serve; [|exact I].
    apply reachable_serve; [apply reachable_empty | exact I].
  - simpl. right. left. reflexivity.
Qed.

Lemma find_app_none {A : Type} (p : A -> bool) (l l' : list A) :
  find p l = None -> find p (l ++ l') = find p l'.
Proof.
  induction l as [|x l IH]; simpl; [reflexivity|].
  destruct (p x); [discriminate | exact IH].
Qed.

(** C4.  Enabling sharing for a user who has a link answers with the code
    of a link of that user and leaves the store as it is.  Two enable
    requests of one user in sequence are answered with the same code, the
    second leaves the store as the first left it, and in a store reached
    through the requests the code is 10 characters long. *)
Theorem shareBrain_enable_idempotent {P : Platform} (u : ObjectId) (body1 body2 : Json)
    (draw1 draw2 : nat -> nat) (st : Store) :
  shareSchema body1 = inr true ->
  shareSchema body2 = inr true ->
  (linksOf u st <> [] ->
     exists existingLink,
       In existingLink (links st) /\ link_userId existingLink = u
       /\ response (shareBrain u body1 draw1 st) = json (BHash (hash existingLink))
       /\ store (shareBrain u body1 draw1 st) = st)
  /\ (exists code,
        response (shareBrain u body1 draw1 st) = json (BHash code)
        /\ response (shareBrain u body2 draw2 (store (shareBrain u body1 draw1 st)))
             = json (BHash code)
        /\ store (shareBrain u body2 draw2 (store (shareBrain u body1 draw1 st)))
             = store (shareBrain u body1 draw1 st)
        /\ (reachable st -> String.length code = 10)).
Proof.
  intros Hv1 Hv2. rewrite (shareBrain_enable_run u body1 draw1 st Hv1).
  destruct (find (linkMatches (byOwner u)) (links st)) as [l|] eqn:Ef.
  - cbn [response store]. rewrite (shareBrain_enable_run u body2 draw2 st Hv2), Ef.
    pose proof (find_some _ _ Ef) as [Hin Hm].
    rewrite linkMatches_byOwner in Hm. apply String.eqb_eq in Hm.
    split.
    + intros _. exists l. auto.
    + exists (hash l). split; [reflexivity|]. split; [reflexivity|].
      split; [reflexivity|].
      intros Hr. exact (code_length (reachable_consistent Hr) l Hin).
  - cbn [response store]. split.
    + intros Hne. exfalso. apply Hne. unfold linksOf.
      apply find_none_filter in Ef.
      now rewrite (filter_ext _ _ (linkMatches_byOwner u)) in Ef.
    + exists (random 10 draw1).
      rewrite (shareBrain_enable_run u body2 draw2 _ Hv2). cbn [links].
      rewrite (find_app_none _ _ _ Ef). cbn [find].
      rewrite linkMatches_byOwner. cbn [link_userId]. rewrite String.eqb_refl.
      split; [reflexivity|]. split; [reflexivity|]. split; [reflexivity|].
      intros _. apply random_length.
Qed.

(** Alice enables sharing twice. *)
Lemma shareBrain_enable_idempotent_witness :
  exists code,
    response (shareBrain alice_id (shareRequest true) (fun i => i) demoStore)
      = json (BHash code)
    /\ response (shareBrain alice_id (shareRequest true) (fun i => i + 5)
                   (store (shareBrain alice_id (shareRequest true) (fun i => i) demoStore)))
       = json (BHash code)
    /\ store (shareBrain alice_id (shareRequest true) (fun i => i + 5)
                (store (shareBrain alice_id (shareRequest true) (fun i => i) demoStore)))
       = store (shareBrain alice_id (shareRequest true) (fun i => i) demoStore)
    /\ String.length code = 10.
Proof.
  destruct (@shareBrain_enable_idempotent demoPlatform alice_id
              (shareRequest true) (shareRequest true) (fun i => i) (fun i => i + 5)
              demoStore eq_refl eq_refl)
    as [_ (code & H1 & H2 & H3 & H4)].
  exists code. repeat split; auto. exact (H4 demoStore_reachable).
Defined.

(** After the [deleteOne] of the disable path the user has one link fewer,
    and none if there was at most one. *)
Lemma disable_count (u : ObjectId) (st : Store) :
  List.length
    (linksOf u (mkStore (users st) (contents st)
                  (fst (removeFirst (linkMatches (byOwner u)) (links st)))))
  = pred (List.length (linksOf u st)).
Proof.
  unfold linksOf. cbn [links].
  apply removeFirst_filter_same. intros l. apply linkMatches_byOwner.
Qed.

Lemma disable_clears (u : ObjectId) (st : Store) :
  List.length (linksOf u st) <= 1 ->
  linksOf u (mkStore (users st) (contents st)
               (fst (removeFirst (linkMatches (byOwner u)) (links st)))) = [].
Proof.
  intros Hle. apply length_zero_iff_nil. rewrite disable_count. lia.
Qed.

(** C5, as the code has it.  Disabling sharing answers "Removed link"
    after a single [deleteOne] filtered by the user, and leaves users and
    content alone.  Either the user had no link and the store is unchanged,
    or exactly the first link stored for the user is taken out and every
    other link stays where it was, those of other users among them.  No
    link of the user remains when the user had at most one, as in every
    store reached through the requests. *)
Theorem disable_removes_first_link {P : Platform} (u : ObjectId) (body : Json)
    (draw : nat -> nat) (st : Store) :
  shareSchema body = inr false ->
  response (shareBrain u body draw st) = json (BMessage "Removed link")
  /\ trace (shareBrain u body draw st) = [Link_deleteOne (mkLinkFilter None (Some u))]
  /\ ((linksOf u st = [] /\ store (shareBrain u body draw st) = st)
      \/ exists before removed after,
           links st = before ++ removed :: after
           /\ link_userId removed = u
           /\ (forall l, In l before -> link_userId l <> u)
           /\ store (shareBrain u body draw st)
                = mkStore (users st) (contents st) (before ++ after))
  /\ users (store (shareBrain u body draw st)) = users st
  /\ contents (store (shareBrain u body draw st)) = contents st
  /\ List.length (linksOf u (store (shareBrain u body draw st)))
       = pred (List.length (linksOf u st))
  /\ (forall v, v <> u -> linksOf v (store (shareBrain u body draw st)) = linksOf v st)
  /\ (List.length (linksOf u st) <= 1 -> linksOf u (store (shareBrain u body draw st)) = [])
  /\ (reachable st -> linksOf u (store (shareBrain u body draw st)) = [])
  /\ (linksOf u st = [] -> store (shareBrain u body draw st) = st).
Proof.
  intros Hv. rewrite (shareBrain_disable_run u body draw st Hv).
  cbn [response store users contents trace].
  assert (Hnil : linksOf u st = [] ->
                 mkStore (users st) (contents st)
                   (fst (removeFirst (linkMatches (byOwner u)) (links st))) = st).
  { intros Hnil. rewrite removeFirst_none; [apply store_eta|].
    intros l Hl. rewrite linkMatches_byOwner.
    apply String.eqb_neq. intros E.
    exact (proj1 (linksOf_nil_iff u st) Hnil l Hl (eq_sym E)). }
  split; [reflexivity|]. split; [reflexivity|]. split.
  { destruct (removeFirst_cases (linkMatches (byOwner u)) (links st))
      as [[E Hnone] | (b & l & a & El & Hl & Hb & E)].
    - left. assert (Hn : linksOf u st = []).
      { apply linksOf_nil_iff. intros l Hl Hu.
        specialize (Hnone l Hl). rewrite linkMatches_byOwner in Hnone.
        apply String.eqb_neq in Hnone. congruence. }
      split; [exact Hn | exact (Hnil Hn)].
    - right. exists b, l, a. rewrite E. cbn [fst].
      rewrite linkMatches_byOwner in Hl. apply String.eqb_eq in Hl.
      split; [exact El|]. split; [now symmetry|]. split; [|reflexivity].
      intros y Hy Hu. specialize (Hb y Hy). rewrite linkMatches_byOwner in Hb.
      apply String.eqb_neq in Hb. congruence. }
  split; [reflexivity|]. split; [reflexivity|].
  split; [apply disable_count|].
  split; [|split; [apply disable_clears | split]].
  - intros v Hvu. unfold linksOf. cbn [links].
    apply removeFirst_filter_other. intros l Hl.
    rewrite linkMatches_byOwner in Hl. apply String.eqb_eq in Hl.
    apply String.eqb_neq. congruence.
  - intros Hr. apply disable_clears. exact (one_link (reachable_consistent Hr) u).
  - exact Hnil.
Qed.

(** Alice enables sharing, then disables it: no link of hers is left. *)
Lemma disable_removes_first_link_witness :
  let shared := store (shareBrain alice_id (shareRequest true) (fun i => i) demoStore) in
  linksOf alice_id shared = [mkLink "ABCDEFGHIJ" alice_id]
  /\ response (shareBrain alice_id (shareRequest false) (fun i => i) shared)
     = json (BMessage "Removed link")
  /\ linksOf alice_id (store (shareBrain alice_id (shareRequest false) (fun i => i) shared))
     = [].
Proof.
  intros shared. split; [reflexivity|].
  destruct (@disable_removes_first_link demoPlatform alice_id (shareRequest false)
              (fun i => i) shared eq_refl)
    as (Hresp & _ & _ & _ & _ & _ & _ & Hone & _).
  split; [exact Hresp|]. apply Hone. simpl. lia.
Defined.

(** C5 as stated fails on a store with two links of one user: the
    disable takes out the first, the second is still there and still
    resolves. *)
Lemma disable_two_links_counterexample :
  let after := store (shareBrain alice_id (shareRequest false) (fun i => i) twoLinkStore) in
  linksOf alice_id twoLinkStore
    = [mkLink "aaaaaaaaaa" alice_id; mkLink "bbbbbbbbbb" alice_id]
  /\ linksOf alice_id after = [mkLink "bbbbbbbbbb" alice_id]
  /\ linksOf alice_id after <> []
  /\ response (resolveBrain "bbbbbbbbbb" after) = json (BBrain "alice" []).
Proof.
  simpl. repeat split. discriminate.
Qed.

(** ** Resolving a share code *)

Lemma userMatches_byId (u : ObjectId) (usr : User) :
  userMatches (byId u) usr = true <-> user_id usr = u.
Proof.
  unfold userMatches, byId. simpl. rewrite andb_true_r, String.eqb_eq.
  intuition congruence.
Qed.

Lemma filter_ownedBy (u : ObjectId) (st : Store) :
  filter (contentMatches (ownedBy u)) (contents st) = contentOf u st.
Proof. reflexivity. Qed.

Lemma resolveBrain_bad_format (shareLink : string) (st : Store) :
  String.length shareLink <> 10 ->
  resolveBrain shareLink st = mkHandled (reject 400 "Invalid share link format") st [].
Proof.
  intros Hlen. unfold resolveBrain, try_catch.
  apply Nat.eqb_neq in Hlen. rewrite Hlen, orb_true_r. reflexivity.
Qed.

Lemma resolveBrain_run (shareLink : string) (st : Store) :
  String.length shareLink = 10 ->
  resolveBrain shareLink st
  = match find (linkMatches (byHash shareLink)) (links st) with
    | None =>
        mkHandled (reject 404 "Share link not found") st [Link_findOne (byHash shareLink)]
    | Some link =>
        mkHandled
          (match find (userMatches (byId (link_userId link))) (users st) with
           | None => reject 404 "User not found"
           | Some user =>
               json (BBrain (username user) (contentOf (link_userId link) st))
           end)
          st
          [Link_findOne (byHash shareLink);
           Content_find (ownedBy (link_userId link));
           User_findOne (byId (link_userId link))]
    end.
Proof.
  intros Hlen. unfold resolveBrain, try_catch.
  assert (E : is_empty shareLink = false) by (destruct shareLink; [discriminate | reflexivity]).
  rewrite E, Hlen. cbn [Nat.eqb negb orb].
  unfold bind, LinkModel_findOne, ContentModel_find, UserModel_findOne.
  cbn [value final calls app]. fold (byHash shareLink).
  destruct (find _ (links st)) as [l|]; [|reflexivity].
  cbn [value final calls app].
  fold (byId (link_userId l)). fold (ownedBy (link_userId l)).
  rewrite filter_ownedBy.
  destruct (find _ (users st)); reflexivity.
Qed.

Lemma find_byHash_none (c : string) (st : Store) :
  (forall l, In l (links st) -> hash l <> c) ->
  find (linkMatches (byHash c)) (links st) = None.
Proof.
  intros H. apply find_none_iff. intros l Hl.
  destruct (linkMatches (byHash c) l) eqn:E; [|reflexivity].
  apply linkMatches_byHash in E. exfalso. exact (H l Hl E).
Qed.

Lemma find_byHash_some (c : string) (st : Store) :
  (exists l, In l (links st) /\ hash l = c) ->
  exists l, find (linkMatches (byHash c)) (links st) = Some l
            /\ In l (links st) /\ hash l = c.
Proof.
  intros (l & Hl & Hh).
  destruct (@find_some_exists _ (linkMatches (byHash c)) (links st) l Hl) as [l' E].
  { now apply linkMatches_byHash. }
  exists l'. split; [assumption|]. apply find_some in E.
  destruct E as [Hin Hm]. apply linkMatches_byHash in Hm. auto.
Qed.

(** The link the lookup by code finds, when its owner is a user: the brain
    of that owner is given out. *)
Lemma resolveBrain_found (c : string) (st : Store) (link : Link) :
  String.length c = 10 ->
  find (linkMatches (byHash c)) (links st) = Some link ->
  isUser (link_userId link) st ->
  exists owner,
    In owner (users st) /\ user_id owner = link_userId link
    /\ response (resolveBrain c st)
         = json (BBrain (username owner) (contentOf (link_userId link) st))
    /\ store (resolveBrain c st) = st.
Proof.
  intros Hlen Ef Hu. rewrite resolveBrain_run by assumption. rewrite Ef.
  unfold isUser in Hu. apply in_map_iff in Hu. destruct Hu as (usr & Hid & Hin).
  destruct (@find_some_exists _ (userMatches (byId (link_userId link))) (users st) usr Hin)
    as [owner Eo].
  { now apply userMatches_byId. }
  rewrite Eo. apply find_some in Eo. destruct Eo as [Hino Hmo].
  apply userMatches_byId in Hmo.
  exists owner. cbn [response store]. auto.
Qed.

(** C6, as the code has it.  A code whose length is not 10 is answered 400
    with no call on the store.  A code of length 10 that no link carries is
    answered 404 "Share link not found"; this is what a code gets after its
    owner disabled sharing, when that owner had at most one link and no
    other user's link carries the code.  A code of length 10 carried by a
    link is answered from the first link stored with it: with the username
    of that link's owner and all content of that owner when the owner is a
    user of the store, as it is in every store reached through the
    requests; the handler takes no credential. *)
Theorem resolveBrain_outcomes {P : Platform} (c : string) (st : Store) :
  (String.length c <> 10 ->
     resolveBrain c st = mkHandled (reject 400 "Invalid share link format") st [])
  /\ (String.length c = 10 ->
      (forall l, In l (links st) -> hash l <> c) ->
      response (resolveBrain c st) = reject 404 "Share link not found"
      /\ store (resolveBrain c st) = st)
  /\ (forall before link after,
        String.length c = 10 ->
        links st = before ++ link :: after ->
        hash link = c ->
        (forall l, In l before -> hash l <> c) ->
        isUser (link_userId link) st ->
        exists owner,
          In owner (users st) /\ user_id owner = link_userId link
          /\ response (resolveBrain c st)
               = json (BBrain (username owner) (contentOf (link_userId link) st))
          /\ store (resolveBrain c st) = st)
  /\ (String.length c = 10 ->
      reachable st ->
      (exists l, In l (links st) /\ hash l = c) ->
      exists link owner,
        In link (links st) /\ hash link = c
        /\ In owner (users st) /\ user_id owner = link_userId link
        /\ response (resolveBrain c st)
             = json (BBrain (username owner) (contentOf (link_userId link) st))
        /\ store (resolveBrain c st) = st)
  /\ (forall u body draw,
        String.length c = 10 ->
        shareSchema body = inr false ->
        List.length (linksOf u st) <= 1 ->
        (forall l, In l (links st) -> hash l = c -> link_userId l = u) ->
        response (resolveBrain c (store (shareBrain u body draw st)))
          = reject 404 "Share link not found").
Proof.
  split; [|split; [|split; [|split]]].
  - apply resolveBrain_bad_format.
  - intros Hlen Hnone. rewrite resolveBrain_run by assumption.
    rewrite (@find_byHash_none c st Hnone). auto.
  - intros before link after Hlen El Hh Hbefore Hu.
    apply resolveBrain_found; [assumption | | assumption].
    rewrite El, find_app_none.
    + cbn [find]. now rewrite (proj2 (linkMatches_byHash c link) Hh).
    + apply find_none_iff. intros l Hl.
      destruct (linkMatches (byHash c) l) eqn:E; [|reflexivity].
      apply linkMatches_byHash in E. exfalso. exact (Hbefore l Hl E).
  - intros Hlen Hr Hex.
    destruct (@find_byHash_some c st Hex) as (l & Ef & Hl & Hh).
    destruct (@resolveBrain_found c st l Hlen Ef
                (link_owner (reachable_consistent Hr) l Hl))
      as (owner & Ho & Hid & Hresp & Hst).
    exists l, owner. auto 10.
  - intros u body draw Hlen Hv Hone Honly.
    rewrite resolveBrain_run by assumption.
    rewrite find_byHash_none; [reflexivity|].
    intros l' Hl' Hh'.
    rewrite (shareBrain_disable_run u body draw st Hv) in Hl'. cbn [store links] in Hl'.
    pose proof (removeFirst_incl _ _ _ Hl') as Hin.
    pose proof (Honly l' Hin Hh') as Hu'.
    pose proof (disable_clears u st Hone) as Hgone.
    apply (proj1 (linksOf_nil_iff u _) Hgone l'); [exact Hl' | exact Hu'].
Qed.

Lemma sharedStore_reachable :
  reachable (P := demoPlatform)
    (store (shareBrain bob_id (shareRequest true) (fun i => i) demoStore)).
Proof.
  change (store (shareBrain bob_id (shareRequest true) (fun i => i) demoStore))
    with (store (serve (P := demoPlatform)
                   (ShareBrain bob_id (shareRequest true) (fun i => i)) demoStore)).
  apply reachable_serve; [apply demoStore_reachable|].
  simpl. right. left. reflexivity.
Qed.

(** Bob shares; his code resolves to his name and item, and to 404 once he
    has disabled sharing. *)
Lemma resolveBrain_outcomes_witness :
  let shared := store (shareBrain bob_id (shareRequest true) (fun i => i) demoStore) in
  response (resolveBrain "ABCDEFGHIJ" shared)
    = json (BBrain "bob" [mkContent item_id "https://x.com/1" twitter "t" bob_id []])
  /\ (exists link owner,
        In link (links shared) /\ hash link = "ABCDEFGHIJ"
        /\ In owner (users shared) /\ user_id owner = link_userId link
        /\ response (resolveBrain "ABCDEFGHIJ" shared)
             = json (BBrain (username owner) (contentOf (link_userId link) shared))
        /\ store (resolveBrain "ABCDEFGHIJ" shared) = shared)
  /\ response (resolveBrain "ABCDEFGHIJ"
                 (store (shareBrain bob_id (shareRequest false) (fun i => i) shared)))
     = reject 404 "Share link not found".
Proof.
  intros shared.
  pose proof (@resolveBrain_outcomes demoPlatform "ABCDEFGHIJ" shared)
    as (_ & _ & Hfound & _ & Hrevoked).
  split; [reflexivity|]. split.
  - destruct (Hfound [] (mkLink "ABCDEFGHIJ" bob_id) [] eq_refl eq_refl eq_refl)
      as (owner & Ho & Hid & Hresp & Hst).
    + intros l [].
    + simpl. right. left. reflexivity.
    + exists (mkLink "ABCDEFGHIJ" bob_id), owner. simpl. auto 10.
  - apply Hrevoked; [reflexivity | reflexivity | simpl; lia |].
    simpl. intros l [<- | []] _. reflexivity.
Defined.

(** C6 as stated fails on a link whose owner is not among the users: the
    code is carried by a link, yet the answer is 404 "User not found", with
    no username and none of the content stored under the owner. *)
Lemma resolveBrain_orphan_link_counterexample :
  In (mkLink "cccccccccc" bob_id) (links orphanLinkStore)
  /\ String.length "cccccccccc" = 10
  /\ contentOf bob_id orphanLinkStore
     = [mkContent item_id "https://x.com/1" twitter "t" bob_id []]
  /\ response (resolveBrain "cccccccccc" orphanLinkStore) = reject 404 "User not found"
  /\ forall name content,
       response (resolveBrain "cccccccccc" orphanLinkStore) <> json (BBrain name content).
Proof.
  repeat split; try reflexivity.
  - simpl. auto.
  - intros name content. discriminate.
Qed.

(** C10.  A code of length 10 carried by a link whose owner is not among
    the users is answered 404 "User not found": the response holds a
    message only, no username and no content, and the store is unchanged. *)
Theorem resolveBrain_owner_absent (c : string) (st : Store) :
  String.length c = 10 ->
  (exists l, In l (links st) /\ hash l = c) ->
  (forall l usr, In l (links st) -> hash l = c -> In usr (users st) ->
     user_id usr <> link_userId l) ->
  response (resolveBrain c st) = reject 404 "User not found"
  /\ store (resolveBrain c st) = st.
Proof.
  intros Hlen Hex Habsent. rewrite resolveBrain_run by assumption.
  destruct (@find_byHash_some c st Hex) as (l & Ef & Hl & Hh). rewrite Ef.
  cbn [response store]. split; [|reflexivity].
  destruct (find (userMatches (byId (link_userId l))) (users st)) as [usr|] eqn:Eu;
    [|reflexivity].
  apply find_some in Eu. destruct Eu as [Hin Hm]. apply userMatches_byId in Hm.
  exfalso. exact (Habsent l usr Hl Hh Hin Hm).
Qed.

(** The link names Bob, who is not a user of this store; his item is in
    it and is not given out. *)
Lemma resolveBrain_owner_absent_witness :
  contentOf bob_id orphanLinkStore
    = [mkContent item_id "https://x.com/1" twitter "t" bob_id []]
  /\ response (resolveBrain "cccccccccc" orphanLinkStore) = reject 404 "User not found"
  /\ store (resolveBrain "cccccccccc" orphanLinkStore) = orphanLinkStore.
Proof.
  split; [reflexivity|].
  apply (@resolveBrain_owner_absent "cccccccccc" orphanLinkStore eq_refl).
  - exists (mkLink "cccccccccc" bob_id). simpl. auto.
  - simpl. intros l usr [<- | []] _ [<- | []]. discriminate.
Defined.

(** * Further properties of the handlers *)

(** ** The identity verifier, read the other way *)

(** The middleware lets a request through only when its header is not
    empty and the token taken from it verifies under [JWT_PASSWORD] to a
    truthy value that is not a string: an object payload, and also an
    array, [true] or a number other than 0.  The identity it binds is the
    [id] of that value, none when the value has no [id], and the header is
    kept.  An identity already present on the incoming request plays no
    part. *)
Theorem userMiddleware_passes_only_verified {P : Platform} (now : Z)
    (req req' : Request) :
  userMiddleware now req = Next req' ->
  (exists header decoded,
     authorization req = Some header /\ header <> ""
     /\ jwt_verify now (tokenOf header) JWT_PASSWORD = inr decoded
     /\ truthy decoded = true /\ isString decoded = false
     /\ req' = mkRequest (Some header) (field "id" decoded))
  /\ forall supplied,
       userMiddleware now (mkRequest (authorization req) supplied) = Next req'.
Proof.
  unfold userMiddleware. cbn [authorization].
  destruct (authorization req) as [header|]; [|discriminate].
  destruct (is_empty header) eqn:Hne; [discriminate|].
  destruct (jwt_verify now (tokenOf header) JWT_PASSWORD) as [e|decoded] eqn:Hv;
    [discriminate|].
  destruct (truthy decoded) eqn:Ht; [|discriminate].
  destruct (isString decoded) eqn:Hs; [discriminate|].
  intros H. injection H as <-. split.
  - exists header, decoded. apply is_empty_false in Hne. auto 10.
  - intros supplied. reflexivity.
Qed.

(** A request that names itself Bob beside Alice's token is bound to
    Alice. *)
Lemma userMiddleware_passes_only_verified_witness :
  userMiddleware (P := demoPlatform) 0
    (mkRequest (Some "Bearer !123123.64b7f0c2a1d3e4f5a6b7c8d9") (Some (JStr bob_id)))
  = Next (mkRequest (Some "Bearer !123123.64b7f0c2a1d3e4f5a6b7c8d9")
            (Some (JStr alice_id))).
Proof.
  exact (proj2 (@userMiddleware_passes_only_verified demoPlatform 0
                  (mkRequest (Some "Bearer !123123.64b7f0c2a1d3e4f5a6b7c8d9") None)
                  (mkRequest (Some "Bearer !123123.64b7f0c2a1d3e4f5a6b7c8d9")
                     (Some (JStr alice_id)))
                  eq_refl)
           (Some (JStr bob_id))).
Defined.

(** A token is treated alike whether the header gives it bare or after
    "Bearer ": for a non-empty token that does not itself start with
    "Bearer ", both headers are rejected with the same response or both
    bind the same identity. *)
Theorem userMiddleware_bearer_or_bare {P : Platform} (now : Z) (token : string)
    (supplied : option Json) :
  token <> "" ->
  startsWith "Bearer " token = false ->
  sameOutcome
    (userMiddleware now (mkRequest (Some token) supplied))
    (userMiddleware now (mkRequest (Some ("Bearer " ++ token)%string) supplied)).
Proof.
  intros Hne Hraw. unfold userMiddleware. cbn [authorization].
  apply is_empty_false in Hne. rewrite Hne.
  change (is_empty ("Bearer " ++ token)%string) with false. cbv iota.
  rewrite tokenOf_bearer. unfold tokenOf at 1. rewrite Hraw.
  destruct (jwt_verify now token JWT_PASSWORD) as [e|decoded]; [reflexivity|].
  destruct (truthy decoded); [|reflexivity].
  destruct (isString decoded); reflexivity.
Qed.

Lemma userMiddleware_bearer_or_bare_witness :
  sameOutcome
    (userMiddleware (P := demoPlatform) 0
       (mkRequest (Some "!123123.64b7f0c2a1d3e4f5a6b7c8d9") None))
    (userMiddleware (P := demoPlatform) 0
       (mkRequest (Some "Bearer !123123.64b7f0c2a1d3e4f5a6b7c8d9") None))
  /\ userMiddleware (P := demoPlatform) 0
       (mkRequest (Some "!123123.64b7f0c2a1d3e4f5a6b7c8d9") None)
     = Next (mkRequest (Some "!123123.64b7f0c2a1d3e4f5a6b7c8d9")
               (Some (JStr alice_id))).
Proof.
  split; [|reflexivity].
  apply (@userMiddleware_bearer_or_bare demoPlatform 0
           "!123123.64b7f0c2a1d3e4f5a6b7c8d9" None).
  - discriminate.
  - reflexivity.
Defined.

(** ** Configuration *)

(** The signing secret is never the empty string: an environment variable
    that is unset or empty gives the built-in default, any other value is
    used as it is. *)
Theorem JWT_PASSWORD_not_empty {P : Platform} :
  JWT_PASSWORD <> ""
  /\ (env_JWT_PASSWORD = None \/ env_JWT_PASSWORD = Some "" -> JWT_PASSWORD = "!123123")
  /\ (forall s, env_JWT_PASSWORD = Some s -> s <> "" -> JWT_PASSWORD = s).
Proof.
  unfold JWT_PASSWORD. destruct env_JWT_PASSWORD as [s|]; simpl.
  - destruct s as [|c s]; simpl.
    + repeat split; try discriminate. intros s' H Hs. injection H as <-. congruence.
    + repeat split; try discriminate.
      * intros [H|H]; discriminate.
      * intros s' H _. now injection H as <-.
  - repeat split; try discriminate. 
Qed.

Lemma JWT_PASSWORD_not_empty_witness :
  @JWT_PASSWORD demoPlatform = "!123123".
Proof.
  apply (proj1 (proj2 (@JWT_PASSWORD_not_empty demoPlatform))).
  left. reflexivity.
Defined.

(** ** What the schemas let through *)

Lemma z_check_ok {A : Type} (ok : A -> bool) (issue : ZodIssue) (a : A) :
  ok a = true -> z_check ok issue (inr a) = inr a.
Proof. intros H. unfold z_check. now rewrite H. Qed.

Lemma field_some_object (k : string) (body v : Json) :
  field k body = Some v -> exists fields, body = JObj fields.
Proof. destruct body; simpl; try discriminate. eauto. Qed.

(** [signupSchema] accepts a body exactly when [username] is a string of 3
    to 50 characters and [password] a string of 6 to 100 characters, both
    bounds included, and hands back these two strings. *)
Theorem signupSchema_accepts_iff (body : Json) (name pw : string) :
  signupSchema body = inr (name, pw)
  <-> field "username" body = Some (JStr name)
      /\ field "password" body = Some (JStr pw)
      /\ 3 <= String.length name <= 50
      /\ 6 <= String.length pw <= 100.
Proof.
  split; [apply signupSchema_inr|].
  intros (Hu & Hp & [Hu1 Hu2] & [Hp1 Hp2]).
  destruct (field_some_object _ _ Hu) as [fields ->].
  unfold signupSchema, z_object. rewrite Hu, Hp.
  unfold z_string, z_min, z_max.
  rewrite !z_check_ok; try reflexivity; now apply Nat.leb_le.
Qed.

(** A username of exactly 50 characters and a password of exactly 6. *)
Lemma signupSchema_accepts_iff_witness :
  signupSchema
    (credentials "abcdefghijklmnopqrstuvwxyabcdefghijklmnopqrstuvwxy" "secret")
  = inr ("abcdefghijklmnopqrstuvwxyabcdefghijklmnopqrstuvwxy", "secret").
Proof.
  apply (proj2 (signupSchema_accepts_iff
                  (credentials "abcdefghijklmnopqrstuvwxyabcdefghijklmnopqrstuvwxy" "secret")
                  "abcdefghijklmnopqrstuvwxyabcdefghijklmnopqrstuvwxy" "secret")).
  simpl. repeat split; lia.
Defined.

Lemma signinSchema_of_signup (body : Json) (name pw : string) :
  signupSchema body = inr (name, pw) -> signinSchema body = inr (name, pw).
Proof.
  intros H. apply signupSchema_inr in H.
  destruct H as (Hu & Hp & [Hu1 _] & [Hp1 _]).
  destruct (field_some_object _ _ Hu) as [fields ->].
  unfold signinSchema, z_object. rewrite Hu, Hp.
  unfold z_string, z_min.
  rewrite !z_check_ok; try reflexivity; apply Nat.leb_le; lia.
Qed.

(** Whatever [signupSchema] accepts, [signinSchema] accepts with the same
    username and password: no account that can be created is shut out by
    the validation of the signin.  The converse fails: a one-character
    username and password pass the signin check only. *)
Theorem signup_body_passes_signin (body : Json) (name pw : string) :
  (signupSchema body = inr (name, pw) -> signinSchema body = inr (name, pw))
  /\ signinSchema (credentials "a" "b") = inr ("a", "b")
  /\ signupSchema (credentials "a" "b")
     = inl (ZodError [too_small "username" "Username must be at least 3 characters";
                      too_small "password" "Password must be at least 6 characters"]).
Proof.
  split; [apply signinSchema_of_signup | split; reflexivity].
Qed.

Lemma signup_body_passes_signin_witness :
  signinSchema (credentials "alice" "secret1") = inr ("alice", "secret1").
Proof.
  exact (proj1 (@signup_body_passes_signin (credentials "alice" "secret1")
                  "alice" "secret1") eq_refl).
Defined.

(** ** Signing up, then signing in *)

Lemma not_taken (name : string) (oid : ObjectId) (l : list User) :
  ~ In name (map username l) -> ~ In oid (map user_id l) ->
  existsb (takenBy name oid) l = false.
Proof.
  intros Hn Ho. destruct (existsb (takenBy name oid) l) eqn:E; [|reflexivity].
  apply existsb_exists in E. destruct E as (u & Hu & Ht).
  unfold takenBy in Ht. apply orb_true_iff in Ht.
  destruct Ht as [Ht|Ht]; apply String.eqb_eq in Ht; exfalso.
  - apply Hn. rewrite <- Ht. now apply in_map.
  - apply Ho. rewrite <- Ht. now apply in_map.
Qed.

Lemma find_byUsername_fresh (name : string) (l : list User) :
  ~ In name (map username l) -> find (userMatches (byUsername name)) l = None.
Proof.
  intros Hn. apply find_none_iff. intros u Hu.
  destruct (userMatches (byUsername name) u) eqn:E; [|reflexivity].
  apply userMatches_byUsername in E. exfalso. apply Hn. rewrite <- E. now apply in_map.
Qed.

(** A signup with a valid body, a username no user has and a fresh
    identifier is answered 200 and adds one user, whose stored password is
    the bcrypt hash and whose other fields are as given; the users, content
    and links already there are kept.  If bcrypt recognises the password
    against that hash, a signin with the same body is then answered with a
    token over the new user's identifier. *)
Theorem signup_then_signin {P : Platform} (body : Json) (name pw salt : string)
    (oid : ObjectId) (later : Z) (st : Store) :
  signupSchema body = inr (name, pw) ->
  ~ In name (map username (users st)) ->
  ~ In oid (map user_id (users st)) ->
  bcrypt_compare pw (bcrypt_hash pw 10 salt) = true ->
  signup body salt oid st
    = mkHandled (json (BMessage "User signed up successfully"))
        (mkStore (users st ++ [mkUser oid name (bcrypt_hash pw 10 salt)])
           (contents st) (links st))
        [User_create name (bcrypt_hash pw 10 salt)]
  /\ response (signin later body (store (signup body salt oid st)))
     = json (BToken (jwt_sign later [("id", JStr oid)] JWT_PASSWORD)).
Proof.
  intros Hv Hn Ho Hc.
  rewrite (signup_run body salt oid st Hv), (not_taken name oid _ Hn Ho).
  split; [reflexivity|]. cbn [store].
  rewrite (signin_run later body _ (signinSchema_of_signup body Hv)).
  cbn [response users].
  rewrite (find_app_none _ _ _ (find_byUsername_fresh name _ Hn)).
  cbn [find]. 
  assert (E : userMatches (byUsername name) (mkUser oid name (bcrypt_hash pw 10 salt)) = true)
    by (apply userMatches_byUsername; reflexivity).
  rewrite E. cbn [password user_id]. now rewrite Hc.
Qed.

Lemma signup_then_signin_witness :
  users (store (signup (P := demoPlatform) (credentials "carol" "opensesame")
                  "salt" item_id demoStore))
    = users demoStore ++ [mkUser item_id "carol" "salt$opensesame"]
  /\ response (signin (P := demoPlatform) 7 (credentials "carol" "opensesame")
                 (store (signup (P := demoPlatform) (credentials "carol" "opensesame")
                           "salt" item_id demoStore)))
     = json (BToken "!123123.64b7f0c2a1d3e4f5a6b7c8db").
Proof.
  destruct (@signup_then_signin demoPlatform (credentials "carol" "opensesame")
              "carol" "opensesame" "salt" item_id 7 demoStore eq_refl) as [H1 H2].
  - simpl. intros [H|[H|[]]]; discriminate.
  - simpl. intros [H|[H|[]]]; discriminate.
  - reflexivity.
  - split; [now rewrite H1 | exact H2].
Defined.

(** ** Validation comes first *)

Lemma z_object_inl {A : Type} (fields : Json -> Parsed A) (body : Json) (e : Thrown) :
  z_object fields body = inl e -> exists issues, e = ZodError issues.
Proof.
  unfold z_object. intros H.
  destruct body; try (injection H as <-; eexists; reflexivity).
  destruct (fields (JObj fields0)); [injection H as <-; eexists; reflexivity | discriminate].
Qed.

(** A body that its schema refuses is answered 400 "Validation error" with
    the issues of the parse, before any call on the store and with the
    store as it was; this holds of the five handlers that take a body. *)
Theorem invalid_body_stops_early {P : Platform} (body : Json) (st : Store) :
  (forall e salt oid, signupSchema body = inl e ->
     exists issues, e = ZodError issues
       /\ signup body salt oid st = mkHandled (validationError issues) st [])
  /\ (forall e now, signinSchema body = inl e ->
        exists issues, e = ZodError issues
          /\ signin now body st = mkHandled (validationError issues) st [])
  /\ (forall e u oid, contentSchema body = inl e ->
        exists issues, e = ZodError issues
          /\ addContent u body oid st = mkHandled (validationError issues) st [])
  /\ (forall e u, deleteContentSchema body = inl e ->
        exists issues, e = ZodError issues
          /\ deleteContent u body st = mkHandled (validationError issues) st [])
  /\ (forall e u draw, shareSchema body = inl e ->
        exists issues, e = ZodError issues
          /\ shareBrain u body draw st = mkHandled (validationError issues) st []).
Proof.
  repeat split; intros.
  - destruct (z_object_inl _ _ H) as [issues ->]. exists issues. split; [reflexivity|].
    unfold signup. now rewrite H, try_catch_lift_inl.
  - destruct (z_object_inl _ _ H) as [issues ->]. exists issues. split; [reflexivity|].
    unfold signin. now rewrite H, try_catch_lift_inl.
  - destruct (z_object_inl _ _ H) as [issues ->]. exists issues. split; [reflexivity|].
    unfold addContent. now rewrite H, try_catch_lift_inl.
  - destruct (z_object_inl _ _ H) as [issues ->]. exists issues. split; [reflexivity|].
    unfold deleteContent. now rewrite H, try_catch_lift_inl.
  - destruct (z_object_inl _ _ H) as [issues ->]. exists issues. split; [reflexivity|].
    unfold shareBrain. now rewrite H, try_catch_lift_inl.
Qed.

(** A content type outside the four of the schema, and a body without a
    [share] field. *)
Lemma invalid_body_stops_early_witness :
  addContent (P := demoPlatform) bob_id
    (JObj [("link", JStr "https://x.com/2"); ("type", JStr "video"); ("title", JStr "t")])
    item_id demoStore
  = mkHandled
      (validationError
         [invalid_value "type" "Type must be one of: youtube, twitter, blog, aichat"])
      demoStore [].
Proof.
  destruct (proj1 (proj2 (proj2
              (@invalid_body_stops_early demoPlatform
                 (JObj [("link", JStr "https://x.com/2"); ("type", JStr "video");
                        ("title", JStr "t")]) demoStore)))
              (ZodError [invalid_value "type"
                           "Type must be one of: youtube, twitter, blog, aichat"])
              bob_id item_id eq_refl) as (issues & E & H).
  injection E as <-. exact H.
Defined.

(** [contentSchema] accepts a body exactly when [link] is a string the URL
    check passes, [type] is one of "youtube", "twitter", "blog", "aichat",
    and [title] is a string of 1 to 200 characters, both bounds included. *)
Theorem contentSchema_accepts_iff {P : Platform} (body : Json) (l : string)
    (t : ContentType) (ti : string) :
  contentSchema body = inr (l, t, ti)
  <-> field "link" body = Some (JStr l) /\ isUrl l = true
      /\ field "type" body = Some (JStr (typeName t))
      /\ field "title" body = Some (JStr ti)
      /\ 1 <= String.length ti <= 200.
Proof.
  split.
  - intros H. apply z_object_inr, z_and_inr in H. destruct H as [H Hti].
    apply z_and_inr in H. destruct H as [Hl Ht].
    unfold z_max, z_min in Hti.
    apply z_check_inr in Hti. destruct Hti as [Hti H2].
    apply z_check_inr in Hti. destruct Hti as [Hti H1].
    apply z_check_inr in Hl. destruct Hl as [Hl Hurl].
    apply z_string_inr in Hl, Hti. apply Nat.leb_le in H1, H2.
    repeat split; auto.
    unfold z_enum_type in Ht.
    destruct (field "type" body) as [[| | |s| |]|]; try discriminate.
    destruct (String.eqb s "youtube") eqn:E1;
      [apply String.eqb_eq in E1; injection Ht as <-; now subst|].
    destruct (String.eqb s "twitter") eqn:E2;
      [apply String.eqb_eq in E2; injection Ht as <-; now subst|].
    destruct (String.eqb s "blog") eqn:E3;
      [apply String.eqb_eq in E3; injection Ht as <-; now subst|].
    destruct (String.eqb s "aichat") eqn:E4;
      [apply String.eqb_eq in E4; injection Ht as <-; now subst|].
    discriminate.
  - intros (Hl & Hurl & Ht & Hti & [H1 H2]).
    destruct (field_some_object _ _ Hl) as [fields ->].
    unfold contentSchema, z_object. rewrite Hl, Ht, Hti.
    unfold z_string, z_min, z_max.
    rewrite !z_check_ok; try assumption; try (now apply Nat.leb_le).
    destruct t; reflexivity.
Qed.

Lemma contentSchema_accepts_iff_witness :
  contentSchema (P := demoPlatform)
    (JObj [("link", JStr "https://x.com/1"); ("type", JStr "aichat"); ("title", JStr "t")])
  = inr ("https://x.com/1", aichat, "t").
Proof.
  apply (proj2 (@contentSchema_accepts_iff demoPlatform
                  (JObj [("link", JStr "https://x.com/1"); ("type", JStr "aichat");
                         ("title", JStr "t")])
                  "https://x.com/1" aichat "t")).
  simpl. repeat split; lia.
Defined.

(** ** Saving, listing and deleting content *)

Lemma addContent_run {P : Platform} (u : ObjectId) (body : Json) (oid : ObjectId)
    (l : string) (t : ContentType) (ti : string) (st : Store) :
  contentSchema body = inr (l, t, ti) ->
  addContent u body oid st
  = if existsb (fun c => String.eqb (content_id c) oid) (contents st)
    then mkHandled (reject 500 "Failed to add content") st [Content_create l t ti u]
    else mkHandled (json (BMessage "Content added successfully"))
           (mkStore (users st) (contents st ++ [mkContent oid l t ti u []]) (links st))
           [Content_create l t ti u].
Proof.
  intros Hv. unfold addContent. rewrite Hv, try_catch_lift_inr.
  unfold try_catch, bind, ContentModel_create.
  destruct (existsb _ (contents st)); reflexivity.
Qed.

Lemma fresh_content_id (oid : ObjectId) (l : list Content) :
  ~ In oid (map content_id l) ->
  existsb (fun c => String.eqb (content_id c) oid) l = false.
Proof.
  intros Hn. destruct (existsb _ l) eqn:E; [|reflexivity].
  apply existsb_exists in E. destruct E as (c & Hc & Ht).
  apply String.eqb_eq in Ht. exfalso. apply Hn. rewrite <- Ht. now apply in_map.
Qed.

Lemma getContent_run (u : ObjectId) (st : Store) :
  getContent u st
  = mkFetched (mkListResponse 200 (LContent (map (populate st) (contentOf u st))))
      st [Content_find (ownedBy u)].
Proof. reflexivity. Qed.

Lemma contentOf_app (u : ObjectId) (st : Store) (extra : list Content) :
  contentOf u (mkStore (users st) (contents st ++ extra) (links st))
  = contentOf u st ++ filter (fun c => String.eqb u (content_userId c)) extra.
Proof. unfold contentOf. cbn [contents]. apply filter_app. Qed.

(** A valid body and a fresh identifier: the item is stored last, owned by
    the requester, with the link, type and title of the body and no tags;
    nothing else in the store changes, and the requester's listing is the
    former listing followed by the new item. *)
Theorem addContent_stores_for_requester {P : Platform} (u : ObjectId) (body : Json)
    (oid : ObjectId) (l : string) (t : ContentType) (ti : string) (st : Store) :
  contentSchema body = inr (l, t, ti) ->
  ~ In oid (map content_id (contents st)) ->
  addContent u body oid st
    = mkHandled (json (BMessage "Content added successfully"))
        (mkStore (users st) (contents st ++ [mkContent oid l t ti u []]) (links st))
        [Content_create l t ti u]
  /\ fetched (getContent u (store (addContent u body oid st)))
     = mkListResponse 200
         (LContent (map (populate st) (contentOf u st ++ [mkContent oid l t ti u []]))).
Proof.
  intros Hv Hfresh.
  rewrite (addContent_run u body oid st Hv), (fresh_content_id oid _ Hfresh).
  split; [reflexivity|]. cbn [store]. rewrite getContent_run. cbn [fetched].
  rewrite contentOf_app. cbn [filter content_userId]. rewrite String.eqb_refl.
  reflexivity.
Qed.

Lemma addContent_stores_for_requester_witness :
  fetched (getContent alice_id
             (store (addContent (P := demoPlatform) alice_id
                       (JObj [("link", JStr "https://x.com/2"); ("type", JStr "blog");
                              ("title", JStr "notes")])
                       "64b7f0c2a1d3e4f5a6b7c8dc" demoStore)))
  = mkListResponse 200
      (LContent
         [mkPopulated
            (mkContent "64b7f0c2a1d3e4f5a6b7c8dc" "https://x.com/2" blog "notes" alice_id [])
            (Some (alice_id, "alice"))]).
Proof.
  refine (proj2 (@addContent_stores_for_requester demoPlatform alice_id
                   (JObj [("link", JStr "https://x.com/2"); ("type", JStr "blog");
                          ("title", JStr "notes")])
                   "64b7f0c2a1d3e4f5a6b7c8dc" "https://x.com/2" blog "notes" demoStore
                   eq_refl _)).
  simpl. intros [H|[]]. discriminate.
Defined.

(** The listing holds exactly the requester's documents, in the order of
    the store: every document listed is owned by the requester, every
    document the requester owns is listed, the owner shown beside a
    document is a user with the requester's identifier, and the store is
    not changed. *)
Theorem getContent_lists_own_content (u : ObjectId) (st : Store) :
  exists items,
    fetched (getContent u st) = mkListResponse 200 (LContent items)
    /\ map doc items = contentOf u st
    /\ (forall item, In item items -> content_userId (doc item) = u)
    /\ (forall c, In c (contents st) -> content_userId c = u -> In c (map doc items))
    /\ (forall item id name,
          In item items -> populated_userId item = Some (id, name) ->
          id = u /\ exists usr, In usr (users st) /\ user_id usr = u /\ username usr = name)
    /\ fetched_store (getContent u st) = st.
Proof.
  exists (map (populate st) (contentOf u st)). rewrite getContent_run.
  assert (Hdoc : map doc (map (populate st) (contentOf u st)) = contentOf u st).
  { rewrite map_map. cbn [populate doc]. apply map_id. }
  split; [reflexivity|]. split; [exact Hdoc|]. split; [|split; [|split]].
  - intros item Hin. apply in_map_iff in Hin. destruct Hin as (c & <- & Hc).
    unfold contentOf in Hc. apply filter_In in Hc. destruct Hc as [_ Hc].
    apply String.eqb_eq in Hc. now symmetry.
  - intros c Hc Hown. rewrite Hdoc. unfold contentOf. apply filter_In.
    split; [assumption|]. apply String.eqb_eq. now symmetry.
  - intros item id name Hin Hpop.
    apply in_map_iff in Hin. destruct Hin as (c & <- & Hc).
    unfold contentOf in Hc. apply filter_In in Hc. destruct Hc as [_ Hc].
    apply String.eqb_eq in Hc. cbn [populate populated_userId] in Hpop.
    destruct (find (userMatches (byId (content_userId c))) (users st)) as [usr|] eqn:Ef;
      [|discriminate].
    injection Hpop as <- <-. apply find_some in Ef. destruct Ef as [Hin Hm].
    apply userMatches_byId in Hm. split; [congruence|].
    exists usr. repeat split; auto. congruence.
  - reflexivity.
Qed.

Lemma getContent_lists_own_content_witness :
  exists items,
    fetched (getContent bob_id demoStore) = mkListResponse 200 (LContent items)
    /\ map doc items = [mkContent item_id "https://x.com/1" twitter "t" bob_id []].
Proof.
  destruct (getContent_lists_own_content bob_id demoStore) as (items & H & Hd & _).
  exists items. split; [exact H | exact Hd].
Defined.

Lemma removeFirst_app_last {A : Type} (p : A -> bool) (l : list A) (x : A) :
  (forall y, In y l -> p y = false) -> p x = true ->
  removeFirst p (l ++ [x]) = (l, 1).
Proof.
  intros Hl Hx. induction l as [|y l IH]; simpl.
  - now rewrite Hx.
  - rewrite (Hl y (or_introl eq_refl)), IH; [reflexivity|].
    intros z Hz. apply Hl. now right.
Qed.

(** Saving an item and then deleting it by its identifier gives back the
    store: for a valid body and a fresh identifier written as 24 lower-case
    hexadecimal digits, both requests are answered 200 and the store after
    the delete is the store before the save. *)
Theorem addContent_then_delete {P : Platform} (u : ObjectId) (body : Json)
    (oid : ObjectId) (l : string) (t : ContentType) (ti : string) (st : Store) :
  contentSchema body = inr (l, t, ti) ->
  ~ In oid (map content_id (contents st)) ->
  matchesObjectIdFormat oid = true ->
  castObjectId oid = oid ->
  response (addContent u body oid st) = json (BMessage "Content added successfully")
  /\ response (deleteContentById u oid (store (addContent u body oid st)))
     = json (BMessage "Content deleted successfully")
  /\ store (deleteContentById u oid (store (addContent u body oid st))) = st.
Proof.
  intros Hv Hfresh Hfmt Hcast.
  rewrite (addContent_run u body oid st Hv), (fresh_content_id oid _ Hfresh).
  cbn [response store]. split; [reflexivity|].
  rewrite deleteContentById_run by assumption. cbn [contents users links].
  rewrite removeFirst_app_last.
  - cbn [Nat.eqb response store]. split; [reflexivity | apply store_eta].
  - intros c Hc. destruct (contentMatches (ownedFilter u oid) c) eqn:E; [|reflexivity].
    apply contentMatches_owned in E. destruct E as [Hid _].
    exfalso. apply Hfresh. rewrite <- Hcast, <- Hid. now apply in_map.
  - apply contentMatches_owned. cbn [content_id content_userId]. auto.
Qed.

Lemma addContent_then_delete_witness :
  store (deleteContentById alice_id "64b7f0c2a1d3e4f5a6b7c8dc"
           (store (addContent (P := demoPlatform) alice_id
                     (JObj [("link", JStr "https://x.com/2"); ("type", JStr "blog");
                            ("title", JStr "notes")])
                     "64b7f0c2a1d3e4f5a6b7c8dc" demoStore)))
  = demoStore.
Proof.
  refine (proj2 (proj2 (@addContent_then_delete demoPlatform alice_id
                   (JObj [("link", JStr "https://x.com/2"); ("type", JStr "blog");
                          ("title", JStr "notes")])
                   "64b7f0c2a1d3e4f5a6b7c8dc" "https://x.com/2" blog "notes" demoStore
                   eq_refl _ eq_refl eq_refl))).
  simpl. intros [H|[]]. discriminate.
Defined.

(** For a well-formed identifier the delete is answered 200 exactly when
    the store holds a document with that identifier owned by the
    requester; it then takes out the first such document and no other, so
    the collection is one document shorter. *)
Theorem deleteContentById_succeeds_iff (A : ObjectId) (contentId : string) (st : Store) :
  matchesObjectIdFormat contentId = true ->
  (response (deleteContentById A contentId st)
     = json (BMessage "Content deleted successfully")
   <-> exists c, In c (contents st)
                 /\ content_id c = castObjectId contentId /\ content_userId c = A)
  /\ (response (deleteContentById A contentId st)
        = json (BMessage "Content deleted successfully") ->
      exists before c after,
        contents st = before ++ c :: after
        /\ contents (store (deleteContentById A contentId st)) = before ++ after
        /\ content_id c = castObjectId contentId /\ content_userId c = A
        /\ (forall y, In y before ->
              ~ (content_id y = castObjectId contentId /\ content_userId y = A))
        /\ S (List.length (contents (store (deleteContentById A contentId st))))
           = List.length (contents st)).
Proof.
  intros Hfmt. rewrite deleteContentById_run by assumption.
  destruct (removeFirst_cases (contentMatches (ownedFilter A contentId)) (contents st))
    as [[E Hnone] | (b & c & a & El & Hc & Hb & E)]; rewrite E; cbn [Nat.eqb response store contents].
  - split; [split|]; try discriminate.
    intros (c & Hc & Hid & Hown).
    assert (Hm : contentMatches (ownedFilter A contentId) c = true)
      by (apply contentMatches_owned; auto).
    rewrite (Hnone c Hc) in Hm. discriminate.
  - apply contentMatches_owned in Hc. destruct Hc as [Hid Hown].
    split; [split; [intros _ | reflexivity]|intros _].
    + exists c. rewrite El, in_app_iff. simpl. auto.
    + exists b, c, a. repeat split; auto.
      * intros y Hy Hm. apply contentMatches_owned in Hm.
        rewrite (Hb y Hy) in Hm. discriminate.
      * rewrite El, !length_app. simpl. lia.
Qed.

Lemma deleteContentById_succeeds_iff_witness :
  response (deleteContentById bob_id item_id demoStore)
    = json (BMessage "Content deleted successfully").
Proof.
  apply (proj1 (@deleteContentById_succeeds_iff bob_id item_id demoStore eq_refl)).
  exists (mkContent item_id "https://x.com/1" twitter "t" bob_id []).
  simpl. auto.
Defined.

(** With identifiers not repeated in the collection, a delete repeated
    with the same identifier is answered 404 and changes nothing more. *)
Theorem deleteContentById_again (A : ObjectId) (contentId : string) (st : Store) :
  matchesObjectIdFormat contentId = true ->
  NoDup (map content_id (contents st)) ->
  response (deleteContentById A contentId (store (deleteContentById A contentId st)))
    = reject 404 "Content not found or not authorized to delete"
  /\ store (deleteContentById A contentId (store (deleteContentById A contentId st)))
     = store (deleteContentById A contentId st).
Proof.
  intros Hfmt Hnd. apply deleteContentById_no_match; [assumption|].
  intros c' Hc' Hid' Hown'.
  rewrite deleteContentById_run in Hc' by assumption.
  destruct (removeFirst_cases (contentMatches (ownedFilter A contentId)) (contents st))
    as [[E Hnone] | (b & c & a & El & Hc & Hb & E)]; rewrite E in Hc'; cbn [store contents] in Hc'.
  - assert (Hm : contentMatches (ownedFilter A contentId) c' = true)
      by (apply contentMatches_owned; auto).
    rewrite (Hnone c' Hc') in Hm. discriminate.
  - apply contentMatches_owned in Hc. destruct Hc as [Hid _].
    rewrite El, map_app in Hnd. cbn [map] in Hnd.
    apply NoDup_remove_2 in Hnd. apply Hnd.
    rewrite Hid, <- Hid', <- map_app. now apply in_map.
Qed.

Lemma deleteContentById_again_witness :
  response (deleteContentById bob_id item_id (store (deleteContentById bob_id item_id demoStore)))
    = reject 404 "Content not found or not authorized to delete"
  /\ store (deleteContentById bob_id item_id (store (deleteContentById bob_id item_id demoStore)))
     = store (deleteContentById bob_id item_id demoStore).
Proof.
  apply (@deleteContentById_again bob_id item_id demoStore eq_refl).
  simpl. constructor; [intros [] | constructor].
Defined.

(** ** Requests that only read *)

(** Signing in, listing content and resolving a share code leave the
    store as it was, whatever the input, and make no call on the store
    other than queries. *)
Theorem reading_requests_change_nothing {P : Platform} (st : Store) :
  (forall now body,
     store (signin now body st) = st
     /\ forallb isQuery (trace (signin now body st)) = true)
  /\ (forall u,
        fetched_store (getContent u st) = st
        /\ forallb isQuery (fetched_trace (getContent u st)) = true)
  /\ (forall shareLink,
        store (resolveBrain shareLink st) = st
        /\ forallb isQuery (trace (resolveBrain shareLink st)) = true).
Proof.
  split; [|split].
  - intros now body. destruct (signinSchema body) as [e | [name pw]] eqn:Hv.
    + destruct (signin_invalid now body st Hv) as [issues E]. rewrite E. auto.
    + rewrite (signin_run now body st Hv). auto.
  - intros u. rewrite getContent_run. auto.
  - intros c. destruct (Nat.eq_dec (String.length c) 10) as [Hlen|Hlen].
    + rewrite resolveBrain_run by assumption.
      destruct (find _ (links st)); auto.
    + rewrite resolveBrain_bad_format by assumption. auto.
Qed.

(** ** Requests of other users *)

Lemma find_app_some {A : Type} (p : A -> bool) (l l' : list A) (x : A) :
  find p l = Some x -> find p (l ++ l') = Some x.
Proof.
  induction l as [|y l IH]; simpl; [discriminate|].
  destruct (p y); auto.
Qed.

Lemma isUser_found (B : ObjectId) (st : Store) :
  isUser B st -> exists usr, find (userMatches (byId B)) (users st) = Some usr.
Proof.
  unfold isUser. intros H. apply in_map_iff in H. destruct H as (usr & Hid & Hin).
  apply (@find_some_exists _ (userMatches (byId B)) (users st) usr Hin).
  now apply userMatches_byId.
Qed.

(** The listing of [B] depends on the documents [B] owns and on the user
    found under [B]'s identifier. *)
Lemma getContent_same (B : ObjectId) (st st' : Store) :
  contentOf B st' = contentOf B st ->
  find (userMatches (byId B)) (users st') = find (userMatches (byId B)) (users st) ->
  fetched (getContent B st') = fetched (getContent B st).
Proof.
  intros Hc Hu. rewrite !getContent_run. cbn [fetched]. rewrite Hc.
  f_equal. f_equal. apply map_ext_in. intros c Hin.
  unfold contentOf in Hin. apply filter_In in Hin. destruct Hin as [_ Hown].
  apply String.eqb_eq in Hown. unfold populate. now rewrite <- Hown, Hu.
Qed.

Lemma signup_effect {P : Platform} (body : Json) (salt : string) (oid : ObjectId)
    (st : Store) :
  contents (store (signup body salt oid st)) = contents st
  /\ links (store (signup body salt oid st)) = links st
  /\ (users (store (signup body salt oid st)) = users st
      \/ exists name pw,
           ~ In name (map username (users st)) /\ ~ In oid (map user_id (users st))
           /\ users (store (signup body salt oid st)) = users st ++ [mkUser oid name pw]).
Proof.
  destruct (signupSchema body) as [e | [name pw]] eqn:Hv.
  - destruct (signup_invalid body salt oid st Hv) as [issues E]. rewrite E. auto.
  - rewrite (signup_run body salt oid st Hv).
    destruct (existsb (takenBy name oid) (users st)) eqn:Et; cbn [store users contents links];
      [auto|].
    split; [reflexivity|]. split; [reflexivity|]. right.
    exists name, (bcrypt_hash pw 10 salt). split; [|split; [|reflexivity]].
    + exact (not_taken_fresh name oid _ Et).
    + intros Hin. apply in_map_iff in Hin. destruct Hin as (u & Hu & Hin).
      assert (E : existsb (takenBy name oid) (users st) = true).
      { apply existsb_exists. exists u. split; [assumption|].
        unfold takenBy. rewrite Hu, String.eqb_refl. apply orb_true_r. }
      rewrite E in Et. discriminate.
Qed.

Lemma addContent_effect {P : Platform} (u : ObjectId) (body : Json) (oid : ObjectId)
    (st : Store) :
  store (addContent u body oid st) = st
  \/ exists l t ti,
       ~ In oid (map content_id (contents st))
       /\ store (addContent u body oid st)
          = mkStore (users st) (contents st ++ [mkContent oid l t ti u []]) (links st).
Proof.
  destruct (contentSchema body) as [e | [[l t] ti]] eqn:Hv.
  - left. unfold addContent. now rewrite Hv, try_catch_lift_inl.
  - rewrite (addContent_run u body oid st Hv).
    destruct (existsb _ (contents st)) eqn:Ee; [now left|].
    right. exists l, t, ti. split; [|reflexivity].
    intros Hin. apply in_map_iff in Hin. destruct Hin as (c & Hc & Hin).
    assert (E : existsb (fun c => String.eqb (content_id c) oid) (contents st) = true).
    { apply existsb_exists. exists c. split; [assumption|]. now apply String.eqb_eq. }
    rewrite E in Ee. discriminate.
Qed.

Lemma deleteContentById_effect (u : ObjectId) (contentId : string) (st : Store) :
  store (deleteContentById u contentId st) = st
  \/ store (deleteContentById u contentId st)
     = mkStore (users st)
         (fst (removeFirst (contentMatches (ownedFilter u contentId)) (contents st)))
         (links st).
Proof.
  destruct (matchesObjectIdFormat contentId) eqn:Hfmt.
  - right. rewrite deleteContentById_run by assumption.
    destruct (removeFirst _ _). reflexivity.
  - left. now rewrite deleteContentById_bad_format.
Qed.

Lemma deleteContent_effect (u : ObjectId) (body : Json) (st : Store) :
  store (deleteContent u body st) = st
  \/ exists contentId,
       store (deleteContent u body st)
       = mkStore (users st)
           (fst (removeFirst (contentMatches (ownedFilter u contentId)) (contents st)))
           (links st).
Proof.
  destruct (deleteContentSchema body) as [e | contentId] eqn:Hv.
  - left. unfold deleteContent. now rewrite Hv, try_catch_lift_inl.
  - assert (E : store (deleteContent u body st) = store (deleteContentById u contentId st)).
    { unfold deleteContent. rewrite Hv, try_catch_lift_inr. reflexivity. }
    rewrite E. destruct (deleteContentById_effect u contentId st) as [H|H]; [now left|].
    right. now exists contentId.
Qed.

Lemma contentOf_after_delete (A B : ObjectId) (contentId : string) (st : Store) :
  A <> B ->
  contentOf B (mkStore (users st)
                 (fst (removeFirst (contentMatches (ownedFilter A contentId)) (contents st)))
                 (links st))
  = contentOf B st.
Proof.
  intros Hne. unfold contentOf. cbn [contents].
  apply removeFirst_filter_other. intros c Hc.
  apply contentMatches_owned in Hc. destruct Hc as [_ Hown].
  apply String.eqb_neq. congruence.
Qed.

(** What a user's listing shows is not changed by a signup or by any
    request made for another user: saving, deleting by path or by body,
    enabling or disabling sharing. *)
Theorem other_requests_keep_listing {P : Platform} (c : ApiCall) (B : ObjectId)
    (st : Store) :
  caller c <> Some B ->
  isUser B st ->
  fetched (getContent B (store (serve c st))) = fetched (getContent B st).
Proof.
  intros Hcaller HB. destruct (@isUser_found B st HB) as [usr Hfound].
  destruct c as [body salt oid | A body oid | A contentId | A body | A body draw];
    cbn [serve caller] in *.
  - destruct (signup_effect body salt oid st) as (Ec & _ & [Eu | (name & pw & _ & _ & Eu)]);
      apply getContent_same; unfold contentOf; rewrite ?Ec, ?Eu; auto.
    rewrite Hfound. now apply find_app_some.
  - assert (Hne : A <> B) by congruence.
    destruct (addContent_effect A body oid st) as [E | (l & t & ti & _ & E)]; rewrite E;
      [reflexivity|].
    apply getContent_same; [|reflexivity].
    rewrite contentOf_app. cbn [filter content_userId].
    assert (Hf : String.eqb B A = false) by (apply String.eqb_neq; congruence).
    rewrite Hf. apply app_nil_r.
  - assert (Hne : A <> B) by congruence.
    destruct (deleteContentById_effect A contentId st) as [E | E]; rewrite E; [reflexivity|].
    apply getContent_same; [now apply contentOf_after_delete | reflexivity].
  - assert (Hne : A <> B) by congruence.
    destruct (deleteContent_effect A body st) as [E | [contentId E]]; rewrite E; [reflexivity|].
    apply getContent_same; [now apply contentOf_after_delete | reflexivity].
  - destruct (shareBrain_keeps_users A body draw st) as [Eu Ec].
    apply getContent_same; unfold contentOf; now rewrite ?Ec, ?Eu.
Qed.

(** Alice saves an item of her own; Bob's listing is the same. *)
Lemma other_requests_keep_listing_witness :
  fetched (getContent bob_id
             (store (serve (P := demoPlatform)
                       (AddContent alice_id
                          (JObj [("link", JStr "https://x.com/2"); ("type", JStr "blog");
                                 ("title", JStr "notes")])
                          "64b7f0c2a1d3e4f5a6b7c8dc") demoStore)))
  = fetched (getContent bob_id demoStore).
Proof.
  apply (@other_requests_keep_listing demoPlatform).
  - discriminate.
  - simpl. right. left. reflexivity.
Defined.

(** ** Sharing switched on and off *)

(** For a user without a link, enabling sharing and then disabling it
    gives back the store: the enable is answered with the new code, the
    disable with "Removed link", and the store is as before the enable. *)
Theorem enable_then_disable (u : ObjectId) (on off : Json) (draw1 draw2 : nat -> nat)
    (st : Store) :
  shareSchema on = inr true ->
  shareSchema off = inr false ->
  linksOf u st = [] ->
  response (shareBrain u on draw1 st) = json (BHash (random 10 draw1))
  /\ links (store (shareBrain u on draw1 st)) = links st ++ [mkLink (random 10 draw1) u]
  /\ response (shareBrain u off draw2 (store (shareBrain u on draw1 st)))
     = json (BMessage "Removed link")
  /\ store (shareBrain u off draw2 (store (shareBrain u on draw1 st))) = st.
Proof.
  intros Hon Hoff Hnone.
  assert (Hfalse : forall l, In l (links st) -> linkMatches (byOwner u) l = false).
  { intros l Hl. rewrite linkMatches_byOwner. apply String.eqb_neq. intros E.
    exact (proj1 (linksOf_nil_iff u st) Hnone l Hl (eq_sym E)). }
  rewrite (shareBrain_enable_run u on draw1 st Hon).
  rewrite (proj2 (find_none_iff _ _) Hfalse). cbn [response store links].
  split; [reflexivity|]. split; [reflexivity|].
  rewrite (shareBrain_disable_run u off draw2 _ Hoff). cbn [response store users contents links].
  split; [reflexivity|].
  rewrite removeFirst_app_last.
  - apply store_eta.
  - exact Hfalse.
  - rewrite linkMatches_byOwner. apply String.eqb_refl.
Qed.

Lemma enable_then_disable_witness :
  store (shareBrain alice_id (shareRequest false) (fun i => i)
           (store (shareBrain alice_id (shareRequest true) (fun i => i) demoStore)))
  = demoStore.
Proof.
  exact (proj2 (proj2 (proj2
           (@enable_then_disable alice_id (shareRequest true) (shareRequest false)
              (fun i => i) (fun i => i) demoStore eq_refl eq_refl eq_refl)))).
Defined.

(** A share request of one user, whatever its body, changes no user, no
    content and no link of any other user. *)
Theorem shareBrain_touches_own_links_only (u v : ObjectId) (body : Json)
    (draw : nat -> nat) (st : Store) :
  v <> u ->
  users (store (shareBrain u body draw st)) = users st
  /\ contents (store (shareBrain u body draw st)) = contents st
  /\ linksOf v (store (shareBrain u body draw st)) = linksOf v st.
Proof.
  intros Hne. destruct (shareBrain_keeps_users u body draw st) as [Eu Ec].
  split; [exact Eu|]. split; [exact Ec|].
  destruct (shareSchema body) as [e | [|]] eqn:Hv.
  - now rewrite (shareBrain_invalid u body draw st Hv).
  - rewrite (shareBrain_enable_run u body draw st Hv).
    destruct (find _ (links st)); [reflexivity|].
    unfold linksOf. cbn [store links]. rewrite filter_app. cbn [filter link_userId].
    assert (Hf : String.eqb v u = false) by now apply String.eqb_neq.
    rewrite Hf. apply app_nil_r.
  - rewrite (shareBrain_disable_run u body draw st Hv).
    unfold linksOf. cbn [store links].
    apply removeFirst_filter_other. intros l Hl.
    rewrite linkMatches_byOwner in Hl. apply String.eqb_eq in Hl.
    apply String.eqb_neq. congruence.
Qed.

(** Alice disabling sharing leaves Bob's link in place. *)
Lemma shareBrain_touches_own_links_only_witness :
  let shared := store (shareBrain bob_id (shareRequest true) (fun i => i) demoStore) in
  linksOf bob_id (store (shareBrain alice_id (shareRequest false) (fun i => i) shared))
  = [mkLink "ABCDEFGHIJ" bob_id].
Proof.
  intros shared.
  rewrite (proj2 (proj2 (@shareBrain_touches_own_links_only alice_id bob_id
                           (shareRequest false) (fun i => i) shared ltac:(discriminate)))).
  reflexivity.
Defined.

(** ** Keys and owners in the stores the requests produce *)

Lemma keyed_empty : Keyed emptyStore.
Proof. constructor; simpl; try constructor. intros ? []. Qed.

Lemma NoDup_map_removeFirst {A B : Type} (f : A -> B) (p : A -> bool) (l : list A) :
  NoDup (map f l) -> NoDup (map f (fst (removeFirst p l))).
Proof.
  intros Hnd.
  destruct (removeFirst_cases p l) as [[E _] | (b & x & a & El & _ & _ & E)];
    rewrite E; cbn [fst]; [assumption|].
  rewrite El, map_app in Hnd. cbn [map] in Hnd.
  apply NoDup_remove_1 in Hnd. now rewrite map_app.
Qed.

Lemma NoDup_map_snoc {A B : Type} (f : A -> B) (l : list A) (x : A) :
  NoDup (map f l) -> ~ In (f x) (map f l) -> NoDup (map f (l ++ [x])).
Proof.
  intros Hnd Hx. rewrite map_app. cbn [map].
  apply NoDup_app; [assumption | repeat constructor; intros [] |].
  intros y Hy [<- | []]. exact (Hx Hy).
Qed.

Lemma keyed_after_delete (u : ObjectId) (contentId : string) (st : Store) :
  Keyed st ->
  Keyed (mkStore (users st)
           (fst (removeFirst (contentMatches (ownedFilter u contentId)) (contents st)))
           (links st)).
Proof.
  intros [H1 H2 H3 H4]. constructor; unfold isUser in *; cbn [users contents]; auto.
  - now apply NoDup_map_removeFirst.
  - intros c Hc. apply removeFirst_incl in Hc. auto.
Qed.

Lemma serve_keyed {P : Platform} (c : ApiCall) (st : Store) :
  authorized c st -> Keyed st -> Keyed (store (serve c st)).
Proof.
  destruct c as [body salt oid | u body oid | u contentId | u body | u body draw];
    cbn [serve authorized]; intros Ha Hk.
  - destruct (signup_effect body salt oid st)
      as (Ec & _ & [Eu | (name & pw & Hn & Ho & Eu)]);
      destruct Hk as [H1 H2 H3 H4]; constructor; unfold isUser in *;
      rewrite ?Ec, ?Eu; auto.
    + now apply NoDup_map_snoc.
    + now apply NoDup_map_snoc.
    + intros c Hc. rewrite map_app, in_app_iff. left. auto.
  - destruct (addContent_effect u body oid st) as [E | (l & t & ti & Hfresh & E)];
      rewrite E; [assumption|].
    destruct Hk as [H1 H2 H3 H4]. constructor; unfold isUser in *; cbn [users contents]; auto.
    + now apply NoDup_map_snoc.
    + intros c Hc. apply in_app_iff in Hc. destruct Hc as [Hc | [<- | []]]; auto.
  - destruct (deleteContentById_effect u contentId st) as [E | E]; rewrite E;
      [assumption | now apply keyed_after_delete].
  - destruct (deleteContent_effect u body st) as [E | [contentId E]]; rewrite E;
      [assumption | now apply keyed_after_delete].
  - destruct (shareBrain_keeps_users u body draw st) as [Eu Ec].
    destruct Hk as [H1 H2 H3 H4]. constructor; unfold isUser in *; rewrite ?Ec, ?Eu; auto.
Qed.

(** In every store reached from the empty one through the requests, no
    two users share a username or an identifier, no two content documents
    share an identifier, and the owner of every content document is a
    user. *)
Theorem reachable_keyed {P : Platform} (st : Store) :
  reachable st ->
  NoDup (map username (users st))
  /\ NoDup (map user_id (users st))
  /\ NoDup (map content_id (contents st))
  /\ (forall c, In c (contents st) -> isUser (content_userId c) st).
Proof.
  intros Hr.
  assert (Hk : Keyed st).
  { induction Hr as [|st c _ IH Ha]; [apply keyed_empty | now apply serve_keyed]. }
  destruct Hk. auto.
Qed.

Lemma reachable_keyed_witness :
  NoDup (map username (users demoStore))
  /\ NoDup (map user_id (users demoStore))
  /\ NoDup (map content_id (contents demoStore))
  /\ (forall c, In c (contents demoStore) -> isUser (content_userId c) demoStore).
Proof.
  exact (@reachable_keyed demoPlatform demoStore demoStore_reachable).
Defined.

(** In every store reached from the empty one through the requests, a
    user has at most one share link and the owner of every link is a
    user. *)
Theorem reachable_one_link_per_user {P : Platform} (st : Store) :
  reachable st ->
  (forall u, List.length (linksOf u st) <= 1)
  /\ (forall l, In l (links st) -> isUser (link_userId l) st).
Proof.
  intros Hr. destruct (reachable_consistent Hr) as [H1 _ H3]. auto.
Qed.

Lemma reachable_one_link_per_user_witness :
  let shared := store (shareBrain bob_id (shareRequest true) (fun i => i) demoStore) in
  (forall u, List.length (linksOf u shared) <= 1)
  /\ (forall l, In l (links shared) -> isUser (link_userId l) shared).
Proof.
  exact (@reachable_one_link_per_user demoPlatform _ sharedStore_reachable).
Defined.
